(** * Cost-component handlers of infracost: aws_instance and azurerm_key_vault_key

    A shallow embedding of

      - [internal/providers/terraform/aws/instance.go]
        ([NewInstance], [computeCostComponent], [reservedInstanceCostComponent],
        [ebsOptimizedCostComponent], [detailedMonitoringCostComponent],
        [cpuCreditsCostComponent], [newRootBlockDevice], [newEbsBlockDevices],
        [newEbsBlockDevice]) and
      - [internal/providers/terraform/azure/key_vault_key.go]
        ([NewAzureKeyVaultKey], [vaultKeysCostComponent]),

    together with the parts of the Go libraries they call (strings, fmt,
    shopspring/decimal, tidwall/gjson, logrus), followed by the properties
    of the handlers. *)

From Stdlib Require Import ZArith QArith Qpower Qfield Lia Ascii String List.
From stdpp Require Import base option list strings pretty gmap.

Set Warnings "-register-all".

Local Open Scope string_scope.
Local Open Scope Z_scope.
Local Open Scope list_scope.

(** ** Go's [strings] and [fmt] on byte strings

    Go strings are byte sequences, as are Rocq's. The functions below agree
    with Go on ASCII input; bytes from 0x80 on (parts of a multi-byte rune)
    are left unchanged by the case mappings and are not word separators. *)
Module strings.

Definition byte_in (lo hi c : ascii) : bool :=
    ((N_of_ascii lo <=? N_of_ascii c) && (N_of_ascii c <=? N_of_ascii hi))%N.

Definition is_digit (c : ascii) : bool := byte_in "0" "9" c.
Definition is_lower (c : ascii) : bool := byte_in "a" "z" c.
Definition is_upper (c : ascii) : bool := byte_in "A" "Z" c.

Definition to_lower (c : ascii) : ascii :=
    if is_upper c then ascii_of_N (N_of_ascii c + 32) else c.

Definition to_upper (c : ascii) : ascii :=
    if is_lower c then ascii_of_N (N_of_ascii c - 32) else c.

  (** [strings.isSeparator]: ASCII letters, digits and the underscore are
      not separators, every other ASCII byte is. *)
Definition isSeparator (c : ascii) : bool :=
    if (N_of_ascii c <=? 127)%N
    then negb (is_digit c || is_lower c || is_upper c || Ascii.eqb c "_")
    else false.

Fixpoint map_bytes (f : ascii -> ascii) (s : string) : string :=
    match s with
    | EmptyString => EmptyString
    | String c s' => String (f c) (map_bytes f s')
    end.

  (** [strings.ToLower]. *)
Definition ToLower (s : string) : string := map_bytes to_lower s.

  (** [strings.Title]: the closure of the source keeps the previous rune in
      [prev], which starts as a space. *)
Fixpoint title_from (prev : ascii) (s : string) : string :=
    match s with
    | EmptyString => EmptyString
    | String c s' =>
        String (if isSeparator prev then to_upper c else c) (title_from c s')
    end.

Definition Title (s : string) : string := title_from " " s.

  (** [strings.HasPrefix]:
      [len(s) >= len(prefix) && s[0:len(prefix)] == prefix]. *)
Definition HasPrefix (s pre : string) : bool :=
    (String.length pre <=? String.length s)%nat
    && bool_decide (substring 0 (String.length pre) s = pre).

  (** [strings.HasSuffix]:
      [len(s) >= len(suffix) && s[len(s)-len(suffix):] == suffix]. *)
Definition HasSuffix (s suf : string) : bool :=
    (String.length suf <=? String.length s)%nat
    && bool_decide
         (substring (String.length s - String.length suf) (String.length suf) s
          = suf).

  (** [strings.SplitN(s, sep, 2)[0]] for a one-byte separator: the text
      before the first separator, all of [s] when there is none. *)
Fixpoint before_first (sep : ascii) (s : string) : string :=
    match s with
    | EmptyString => EmptyString
    | String c s' =>
        if Ascii.eqb c sep then EmptyString else String c (before_first sep s')
    end.

  (** [strings.Split(s, sep)] for a one-byte separator. *)
Fixpoint split_on (sep : ascii) (s : string) : list string :=
    match s with
    | EmptyString => [EmptyString]
    | String c s' =>
        if Ascii.eqb c sep then EmptyString :: split_on sep s'
        else match split_on sep s' with
             | [] => [String c EmptyString]
             | w :: ws => String c w :: ws
             end
    end.

  (** The [%d] verb of [fmt.Sprintf]. *)
Definition itoa (n : Z) : string := pretty n.

End strings.

(** ** [int64] *)
Module int64.

Definition min_int : Z := - 2 ^ 63.
Definition max_int : Z := 2 ^ 63 - 1.

  (** Two's-complement wrap-around of a mathematical integer. *)
Definition wrap (z : Z) : Z := (z + 2 ^ 63) mod 2 ^ 64 - 2 ^ 63.

Definition in_range (z : Z) : Prop := min_int <= z <= max_int.

End int64.

(** ** [github.com/shopspring/decimal]

    A [Decimal] is [value * 10 ^ exp] with an arbitrary-precision [value]
    ([big.Int]); [exp] is an [int32] in Go and never leaves that range in the
    code below. *)
Module decimal.

Record Decimal : Type := New { value : Z; exp : Z }.

#[global] Instance Decimal_eq_dec : EqDecision Decimal.
Proof. solve_decision. Defined.

  (** [decimal.Zero = New(0, 1)]. *)
Definition Zero : Decimal := New 0 1.

Definition NewFromInt (v : Z) : Decimal := New v 0.

Definition DivisionPrecision : Z := 16.

  (** [d.rescale(exp)]: the same number (truncated when [exp] is larger)
      written with exponent [e]. *)
Definition rescale (d : Decimal) (e : Z) : Decimal :=
    if decide (exp d = e) then d
    else
      let expScale := 10 ^ Z.abs (e - exp d) in
      if decide (exp d < e) then New (Z.quot (value d) expScale) e
      else New (value d * expScale) e.

Definition RescalePair (d1 d2 : Decimal) : Decimal * Decimal :=
    if decide (exp d1 = exp d2) then (d1, d2)
    else
      let baseScale := Z.min (exp d1) (exp d2) in
      if decide (baseScale = exp d1) then (d1, rescale d2 baseScale)
      else (rescale d1 baseScale, d2).

Definition Add (d d2 : Decimal) : Decimal :=
    let '(rd, rd2) := RescalePair d d2 in New (value rd + value rd2) (exp rd).

Definition Sub (d d2 : Decimal) : Decimal :=
    let '(rd, rd2) := RescalePair d d2 in New (value rd - value rd2) (exp rd).

Definition Abs (d : Decimal) : Decimal := New (Z.abs (value d)) (exp d).

Definition Cmp (d d2 : Decimal) : comparison :=
    if decide (exp d = exp d2) then value d ?= value d2
    else let '(rd, rd2) := RescalePair d d2 in value rd ?= value rd2.

Definition GreaterThan (d d2 : Decimal) : bool :=
    match Cmp d d2 with Gt => true | _ => false end.

Definition LessThan (d d2 : Decimal) : bool :=
    match Cmp d d2 with Lt => true | _ => false end.

Definition GreaterThanOrEqual (d d2 : Decimal) : bool :=
    match Cmp d d2 with Lt => false | _ => true end.

  (** [d.QuoRem(d2, precision)]; [None] is the panic on a zero divisor. *)
Definition QuoRem (d d2 : Decimal) (precision : Z)
    : option (Decimal * Decimal) :=
    if decide (value d2 = 0) then None
    else
      let scale := - precision in
      let e := exp d - exp d2 - scale in
      let '(aa, bb, scalerest) :=
        if decide (e < 0)
        then (value d, value d2 * 10 ^ (- e), exp d)
        else (value d * 10 ^ e, value d2, scale + exp d2) in
      Some (New (Z.quot aa bb) scale, New (Z.rem aa bb) scalerest).

  (** [d.DivRound(d2, precision)]: the quotient rounded half away from
      zero to [precision] decimal places. *)
Definition DivRound (d d2 : Decimal) (precision : Z) : option Decimal :=
    match QuoRem d d2 precision with
    | None => None
    | Some (q, r) =>
        let r2 := New (Z.abs (value r) * 2) (exp r + precision) in
        match Cmp r2 (Abs d2) with
        | Lt => Some q
        | _ =>
            if decide (Z.sgn (value d) * Z.sgn (value d2) < 0)
            then Some (Sub q (New 1 (- precision)))
            else Some (Add q (New 1 (- precision)))
        end
    end.

  (** [d.Div(d2)]. *)
Definition Div (d d2 : Decimal) : option Decimal :=
    DivRound d d2 DivisionPrecision.

  (** The rational number a decimal stands for. *)
Definition toQ (d : Decimal) : Q := (inject_Z (value d) * Qpower 10 (exp d))%Q.

  (** Writing a decimal without trailing zeros in its coefficient, as
      [decimal.NewFromFloat] does: it reads the shortest digit string that
      identifies the float. *)
Fixpoint strip_zeros (fuel : nat) (v e : Z) : Decimal :=
    match fuel with
    | O => New v e
    | S fuel' =>
        if decide (v <> 0 /\ Z.rem v 10 = 0)
        then strip_zeros fuel' (Z.quot v 10) (e + 1)
        else New v e
    end.

Definition normalise (d : Decimal) : Decimal :=
    if decide (value d = 0) then New 0 0
    else strip_zeros (Z.to_nat (Z.log2 (Z.abs (value d)))) (value d) (exp d).

End decimal.

(** ** [float64]

    Floating point is not modelled bit by bit. A finite [float64] is
    represented by the decimal number that [strconv] prints for it (the
    shortest digit string that reads back as the same float), which is the
    number [decimal.NewFromFloat] and [strconv.FormatFloat(f, 'f', -1, 64)]
    both work from. Infinities, NaN and the negative zero are left out. *)
Module float64.

Definition t : Type := decimal.Decimal.

Definition of_Z (z : Z) : t := decimal.New z 0.

Definition is_zero (f : t) : bool := bool_decide (decimal.value f = 0).

  (** The Go conversion [int64(f)]: truncation towards zero. The result
      for a float outside the [int64] range is implementation-specific in
      Go; here it wraps around. *)
Definition to_int64 (f : t) : Z :=
    int64.wrap
      (if decide (0 <= decimal.exp f)
       then decimal.value f * 10 ^ decimal.exp f
       else Z.quot (decimal.value f) (10 ^ (- decimal.exp f))).

  (** [decimal.NewFromFloat]. *)
Definition to_decimal (f : t) : decimal.Decimal := decimal.normalise f.

Fixpoint zeros (n : nat) : string :=
    match n with O => "" | S n' => String "0" (zeros n') end.

  (** [strconv.FormatFloat(f, 'f', -1, 64)]. *)
Definition FormatFloat (f : t) : string :=
    let d := decimal.normalise f in
    let v := decimal.value d in
    let e := decimal.exp d in
    if decide (0 <= e) then strings.itoa (v * 10 ^ e)
    else
      let scale := 10 ^ (- e) in
      let frac := strings.itoa (Z.abs v mod scale) in
      (if decide (v < 0) then "-" else "")
        +:+ strings.itoa (Z.abs v / scale) +:+ "."
        +:+ zeros (Z.to_nat (- e) - String.length frac) +:+ frac.

  (** Reading a run of decimal digits: the number read so far, how many
      digits were read, and the rest of the string. *)
Fixpoint digits (s : string) (acc : Z) (count : nat) : Z * nat * string :=
    match s with
    | String c s' =>
        if strings.is_digit c
        then digits s' (acc * 10 + (Z.of_N (N_of_ascii c) - 48)) (S count)
        else (acc, count, s)
    | EmptyString => (acc, count, s)
    end.

Definition sign (s : string) : bool * string :=
    match s with
    | String "-" s' => (true, s')
    | String "+" s' => (false, s')
    | _ => (false, s)
    end.

Definition exponent (s : string) : option Z :=
    match s with
    | EmptyString => Some 0
    | String c s' =>
        if Ascii.eqb c "e" || Ascii.eqb c "E" then
          let '(neg, s1) := sign s' in
          match digits s1 0 0 with
          | (_, O, _) => None
          | (n, _, EmptyString) => Some (if neg then - n else n)
          | _ => None
          end
        else None
    end.

  (** [strconv.ParseFloat(s, 64)] on plain decimal literals
      ([[+-]digits[.digits][e[+-]digits]]); [None] is a syntax error.
      Hexadecimal floats, digit separators, "inf" and "nan" are not
      modelled. *)
Definition ParseFloat (s : string) : option t :=
    let '(neg, s1) := sign s in
    let '(ip, n1, s2) := digits s1 0 0 in
    let '(m, n2, s3) :=
      match s2 with
      | String "." s2' => digits s2' ip 0
      | _ => (ip, O, s2)
      end in
    if decide (n1 + n2 = 0)%nat then None
    else
      match exponent s3 with
      | None => None
      | Some e =>
          Some (decimal.New (if neg then - m else m) (e - Z.of_nat n2))
      end.

End float64.

(** ** [github.com/tidwall/gjson]

    A parsed JSON value is a tree. Numbers, arrays and objects keep their
    source text [Raw], which [String] returns for them. A [Result] is either
    a value found in the document or the zero [Result{}], which does not
    exist. Paths are dotted sequences of object keys and array indices, the
    only form the handlers use; the query syntax of gjson ([#], [*], [?],
    [|], [@]) is not modelled. *)
Module gjson.

Inductive Value : Type :=
  | VNull
  | VFalse
  | VTrue
  | VNumber (raw : string) (num : float64.t)
  | VString (str : string)
  | VArray (raw : string) (elems : list Value)
  | VObject (raw : string) (members : list (string * Value)).

Definition Result : Type := option Value.

Inductive Type_ : Type := Null | False_ | Number | String_ | True_ | JSON.

#[global] Instance Type_eq_dec : EqDecision Type_.
Proof. solve_decision. Defined.

  (** The field [Result.Type]. *)
Definition TypeOf (t : Result) : Type_ :=
    match t with
    | None | Some VNull => Null
    | Some VFalse => False_
    | Some VTrue => True_
    | Some (VNumber _ _) => Number
    | Some (VString _) => String_
    | Some (VArray _ _) | Some (VObject _ _) => JSON
    end.

  (** [t.Exists()]: [t.Type != Null || len(t.Raw) != 0]; a [null] found in
      the document has the raw text [null]. *)
Definition Exists (t : Result) : bool :=
    match t with None => false | Some _ => true end.

Fixpoint all_digits (s : string) : bool :=
    match s with
    | EmptyString => true
    | String c s' => strings.is_digit c && all_digits s'
    end.

  (** The test of [String] on a number's raw text: an optional minus sign
      followed by digits only, and not empty. *)
Definition integer_shaped (raw : string) : bool :=
    match raw with
    | EmptyString => false
    | String "-" s' => all_digits s'
    | _ => all_digits raw
    end.

  (** [t.String()]. *)
Definition String (t : Result) : string :=
    match t with
    | None | Some VNull => ""
    | Some VFalse => "false"
    | Some VTrue => "true"
    | Some (VNumber raw num) =>
        if integer_shaped raw then raw else float64.FormatFloat num
    | Some (VString str) => str
    | Some (VArray raw _) | Some (VObject raw _) => raw
    end.

  (** gjson's own [parseInt]: an optional minus sign and at least one
      digit, nothing else; the [int64] accumulator wraps around. *)
Definition parseInt (s : string) : option Z :=
    let '(neg, s1) :=
      match s with String.String "-" s' => (true, s') | _ => (false, s) end in
    match float64.digits s1 0 0 with
    | (_, O, _) => None
    | (n, _, EmptyString) =>
        Some (int64.wrap (if neg then - int64.wrap n else int64.wrap n))
    | _ => None
    end.

  (** gjson's [floatToInt]: the conversion succeeds when converting back
      gives the same float. *)
Definition floatToInt (f : float64.t) : option Z :=
    let n := float64.to_int64 f in
    if decide (decimal.Cmp (float64.of_Z n) f = Eq) then Some n else None.

  (** [t.Int()]. *)
Definition Int (t : Result) : Z :=
    match t with
    | Some VTrue => 1
    | Some (VString str) => default 0 (parseInt str)
    | Some (VNumber raw num) =>
        match floatToInt num with
        | Some n => n
        | None =>
            match parseInt raw with
            | Some n => n
            | None => float64.to_int64 num
            end
        end
    | _ => 0
    end.

  (** [t.Float()]. *)
Definition Float (t : Result) : float64.t :=
    match t with
    | Some VTrue => float64.of_Z 1
    | Some (VString str) => default (float64.of_Z 0) (float64.ParseFloat str)
    | Some (VNumber _ num) => num
    | _ => float64.of_Z 0
    end.

  (** [t.Bool()]; [strconv.ParseBool] of a lower-cased string accepts
      ["1"], ["t"] and ["true"] as true. *)
Definition Bool (t : Result) : bool :=
    match t with
    | Some VTrue => true
    | Some (VString str) =>
        let b := strings.ToLower str in
        bool_decide (b = "1" \/ b = "t" \/ b = "true")
    | Some (VNumber _ num) => negb (float64.is_zero num)
    | _ => false
    end.

  (** [t.Array()]: the elements of an array; nothing for a null or missing
      value; any other value alone. *)
Definition Array (t : Result) : list Result :=
    match t with
    | None | Some VNull => []
    | Some (VArray _ elems) => Some <$> elems
    | Some v => [Some v]
    end.

Fixpoint member (key : string) (members : list (string * Value)) : Result :=
    match members with
    | [] => None
    | (k, v) :: rest => if decide (k = key) then Some v else member key rest
    end.

Definition index (key : string) : option nat :=
    match float64.digits key 0 0 with
    | (_, O, _) => None
    | (n, _, EmptyString) => Some (Z.to_nat n)
    | _ => None
    end.

  (** One step of a path: a key of an object or an index of an array. *)
Definition child (v : Value) (key : string) : Result :=
    match v with
    | VObject _ members => member key members
    | VArray _ elems => i ← index key; elems !! i
    | _ => None
    end.

Fixpoint walk (t : Result) (keys : list string) : Result :=
    match keys with
    | [] => t
    | key :: keys' =>
        match t with
        | None => None
        | Some v => walk (child v key) keys'
        end
    end.

  (** [t.Get(path)]. *)
Definition Get (t : Result) (path : string) : Result :=
    walk t (strings.split_on "." path).

End gjson.

(** ** [internal/schema]

    The structs of the schema package, with the fields the handlers set or
    read. Pointer fields ([*string], [*decimal.Decimal], [*ProductFilter])
    are options: [None] is [nil]. *)
Module schema.

Module AttributeFilter.
Record t : Type := New
      { Key : string; Value : option string; ValueRegex : option string }.
End AttributeFilter.

Module ProductFilter.
Record t : Type := New
      { VendorName : option string;
        Region : option string;
        Service : option string;
        ProductFamily : option string;
        AttributeFilters : list AttributeFilter.t }.
End ProductFilter.

Module PriceFilter.
Record t : Type := New
      { PurchaseOption : option string;
        StartUsageAmount : option string;
        TermOfferingClass : option string;
        TermLength : option string;
        TermPurchaseOption : option string }.
End PriceFilter.

Module CostComponent.
Record t : Type := New
      { Name : string;
        Unit : string;
        UnitMultiplier : Z;
        IgnoreIfMissingPrice : bool;
        HourlyQuantity : option decimal.Decimal;
        MonthlyQuantity : option decimal.Decimal;
        ProductFilter : option ProductFilter.t;
        PriceFilter : option PriceFilter.t }.
End CostComponent.

  (** The output tree: a resource with its cost components and its
      sub-resources. *)
Module Resource.
Inductive t : Type := New
      { Name : string;
        SubResources : list t;
        CostComponents : list CostComponent.t }.
End Resource.

  (** Modelled from the spec: the Resource Data View (section 4.1), whose
      declaration is in [internal/schema]. [Get] looks a path up in the
      resource's attribute tree and never fails; [References] resolves a
      link attribute to the resources it points to, in declaration order,
      and is empty when the link is unresolved or absent. *)
Module ResourceData.
Inductive t : Type := New
      { Address : string;
        RawValues : gjson.Result;
        referencesMap : list (string * list t) }.

Definition Get (d : t) (key : string) : gjson.Result :=
      gjson.Get (RawValues d) key.

Fixpoint lookup_refs (key : string) (m : list (string * list t)) : list t :=
      match m with
      | [] => []
      | (k, rs) :: m' => if decide (k = key) then rs else lookup_refs key m'
      end.

Definition References (d : t) (key : string) : list t :=
      lookup_refs key (referencesMap d).
End ResourceData.

  (** Modelled from the spec: the Usage Data View (section 4.2), whose
      declaration is in [internal/schema]: a map from usage-metric name to
      value, where a missing key gives a value that does not exist. A
      handler receives [None] (a nil pointer) when the user gave no usage
      for the resource. *)
Module UsageData.
Record t : Type := New
      { Address : string;
        Attributes : gmap string gjson.Result }.

Definition Get (u : t) (key : string) : gjson.Result :=
      default None (Attributes u !! key).
End UsageData.

End schema.

(** ** The state a handler runs in

    A handler is a Go function: it reads package-level variables, writes
    warnings to the logger and may panic. [World] holds the state that
    outlives a call; a computation either returns a value and the new
    world or panics. *)
Module runtime.

Record World : Type := NewWorld
    { (** [var defaultEC2InstanceMetricCount] of package aws *)
      defaultEC2InstanceMetricCount : Z;
      (** the warnings written by [log.Warnf], oldest first *)
      warnings : list string }.

  (** The world at program start: the variable holds its initialiser. *)
Definition initial : World :=
    {| defaultEC2InstanceMetricCount := 7; warnings := [] |}.

Inductive Outcome (A : Type) : Type :=
  | Returns (a : A) (w : World)
  | Panics (msg : string).
Arguments Returns {A} a w.
Arguments Panics {A} msg.

Definition Go (A : Type) : Type := World -> Outcome A.

Definition ret {A} (a : A) : Go A := fun w => Returns a w.

Definition bind {A B} (m : Go A) (k : A -> Go B) : Go B :=
    fun w =>
      match m w with
      | Returns a w' => k a w'
      | Panics msg => Panics msg
      end.

Definition panic {A} (msg : string) : Go A := fun _ => Panics msg.

  (** [log.Warnf], with the message already formatted. *)
Definition Warnf (msg : string) : Go unit :=
    fun w =>
      Returns tt {| defaultEC2InstanceMetricCount := defaultEC2InstanceMetricCount w;
                    warnings := warnings w ++ [msg] |}.

  (** Reading the package-level variable. *)
Definition read_defaultEC2InstanceMetricCount : Go Z :=
    fun w => Returns (defaultEC2InstanceMetricCount w) w.

  (** Indexing a slice: out of range is a run-time panic. *)
Definition at_index {A} (l : list A) (i : nat) : Go A :=
    match l !! i with
    | Some a => ret a
    | None =>
        panic ("runtime error: index out of range ["
                 +:+ strings.itoa (Z.of_nat i) +:+ "] with length "
                 +:+ strings.itoa (Z.of_nat (length l)))
    end.

End runtime.

Declare Scope go_scope.
Delimit Scope go_scope with go.
Notation "x <- m ;; k" := (runtime.bind m (fun x => k))
  (at level 100, m at next level, right associativity) : go_scope.
Notation "m ;;; k" := (runtime.bind m (fun _ => k))
  (at level 100, right associativity) : go_scope.
Local Open Scope go_scope.

(** [strPtr] and [decimalPtr] of the provider packages take the address of
    their argument. *)
Definition strPtr (s : string) : option string := Some s.
Definition decimalPtr (d : decimal.Decimal) : option decimal.Decimal := Some d.

(** [schema.RegistryItem]: the entry a provider registers for a resource
    type. [RFunc] is the handler; [ReferenceAttributes] are the attributes
    the loader resolves into [References] before it calls the handler. *)
Module RegistryItem.
Record t : Type := New
  { Name : string;
    Notes : list string;
    RFunc : schema.ResourceData.t -> option schema.UsageData.t ->
            runtime.Go (option schema.Resource.t);
    ReferenceAttributes : list string }.
End RegistryItem.

(** ** [internal/usage] *)
Module usage.

  (** Modelled from the spec: the Tiered-Quantity Allocator (section 4.3),
      declared in [internal/usage]. The limits are tier widths; tier [i]
      receives [min(remaining, bound_i)], the remainder goes on to the next
      tier, and the last, unbounded bucket takes what is left. The result
      has one bucket more than there are limits. *)
Fixpoint CalculateTierBuckets (requestCount : decimal.Decimal)
      (tierLimits : list Z) : list decimal.Decimal :=
    match tierLimits with
    | [] => [requestCount]
    | limit :: rest =>
        let tier := decimal.NewFromInt limit in
        let bucket :=
          if decimal.LessThan requestCount tier then requestCount else tier in
        bucket :: CalculateTierBuckets (decimal.Sub requestCount bucket) rest
    end.

End usage.

(** ** [internal/providers/terraform/aws]: the [aws_instance] handler *)
Module aws.

Import schema runtime.

  (** Modelled from the spec: [defaultVolumeSize] is declared in another
      file of the package; "an unspecified root volume defaults to an 8 GiB
      gp2 volume" (section 4.5), as the registry note of the handler says
      too. *)
Definition defaultVolumeSize : Z := 8.

Section instance.

    (** [ebsVolumeCostComponents(region, volumeAPIName, throughputVal,
        gbVal, iopsVal, monthlyIORequests)] builds the cost components of a
        volume. It is declared in another file of the package and is a
        parameter here. *)
Variable ebsVolumeCostComponents :
      string -> string -> option decimal.Decimal -> decimal.Decimal ->
      decimal.Decimal -> option decimal.Decimal -> list CostComponent.t.

Definition newEbsBlockDevice (name : string) (d : gjson.Result)
        (region : string) : Resource.t :=
      let volumeAPIName :=
        if gjson.Exists (gjson.Get d "volume_type")
        then gjson.String (gjson.Get d "volume_type") else "gp2" in
      let gbVal :=
        if gjson.Exists (gjson.Get d "volume_size")
        then float64.to_decimal (gjson.Float (gjson.Get d "volume_size"))
        else decimal.NewFromInt defaultVolumeSize in
      let iopsVal :=
        if gjson.Exists (gjson.Get d "iops")
        then float64.to_decimal (gjson.Float (gjson.Get d "iops"))
        else decimal.Zero in
      let unknown : option decimal.Decimal := None in
      {| Resource.Name := name;
         Resource.SubResources := [];
         Resource.CostComponents :=
           ebsVolumeCostComponents region volumeAPIName unknown gbVal iopsVal
             unknown |}.

Definition newRootBlockDevice (d : gjson.Result) (region : string)
      : Resource.t :=
      newEbsBlockDevice "root_block_device" d region.

Definition newEbsBlockDevices (d : gjson.Result) (region : string)
      : list Resource.t :=
      imap (fun i data =>
              newEbsBlockDevice
                ("ebs_block_device[" +:+ strings.itoa (Z.of_nat i) +:+ "]")
                data region)
           (gjson.Array d).

Definition reservedInstanceCostComponent
        (region osLabel purchaseOptionLabel reservedType reservedTerm
           reservedPaymentOption tenancy instanceType operatingSystem : string)
        (count : Z) : CostComponent.t :=
      let reservedTermName :=
        default "" (({[ "1_year" := "1yr"; "3_year" := "3yr" ]}
                       : gmap string string) !! reservedTerm) in
      let reservedPaymentOptionName :=
        default "" (({[ "no_upfront" := "No Upfront";
                        "partial_upfront" := "Partial Upfront";
                        "all_upfront" := "All Upfront" ]}
                       : gmap string string) !! reservedPaymentOption) in
      {| CostComponent.Name :=
           "Instance usage (" +:+ osLabel +:+ ", " +:+ purchaseOptionLabel
             +:+ ", " +:+ instanceType +:+ ")";
         CostComponent.Unit := "hours";
         CostComponent.UnitMultiplier := 1;
         CostComponent.IgnoreIfMissingPrice := false;
         CostComponent.HourlyQuantity := decimalPtr (decimal.NewFromInt count);
         CostComponent.MonthlyQuantity := None;
         CostComponent.ProductFilter := Some
           {| ProductFilter.VendorName := strPtr "aws";
              ProductFilter.Region := strPtr region;
              ProductFilter.Service := strPtr "AmazonEC2";
              ProductFilter.ProductFamily := strPtr "Compute Instance";
              ProductFilter.AttributeFilters :=
                [ AttributeFilter.New "instanceType" (strPtr instanceType) None;
                  AttributeFilter.New "tenancy" (strPtr tenancy) None;
                  AttributeFilter.New "operatingSystem" (strPtr operatingSystem) None;
                  AttributeFilter.New "preInstalledSw" (strPtr "NA") None;
                  AttributeFilter.New "capacitystatus" (strPtr "Used") None ] |};
         CostComponent.PriceFilter := Some
           {| PriceFilter.PurchaseOption := None;
              PriceFilter.StartUsageAmount := strPtr "0";
              PriceFilter.TermOfferingClass := Some reservedType;
              PriceFilter.TermLength := Some reservedTermName;
              PriceFilter.TermPurchaseOption := Some reservedPaymentOptionName |} |}.

    (** The first block of [computeCostComponent]: the operating system
        named by the usage data, as the pair of [osLabel] and
        [operatingSystem]. The [default] case of the switch reports a name
        other than "linux" and leaves both variables as initialised. *)
Definition operatingSystemOf (u : option UsageData.t) : Go (string * string) :=
      let osLabel := "Linux/UNIX" in
      let operatingSystem := "Linux" in
      match u with
      | Some u' =>
          if gjson.Exists (UsageData.Get u' "operating_system") then
            let os :=
              strings.ToLower (gjson.String (UsageData.Get u' "operating_system")) in
            if decide (os = "windows") then ret ("Windows", "Windows")
            else if decide (os = "rhel") then ret ("RHEL", "RHEL")
            else if decide (os = "suse") then ret ("SUSE", "SUSE")
            else if decide (os <> "linux") then
              Warnf ("Unrecognized operating system " +:+ os
                       +:+ ", defaulting to Linux/UNIX") ;;;
              ret (osLabel, operatingSystem)
            else ret (osLabel, operatingSystem)
          else ret (osLabel, operatingSystem)
      | None => ret (osLabel, operatingSystem)
      end.

Definition computeCostComponent (d : ResourceData.t)
        (u : option UsageData.t) (purchaseOption tenancy : string)
      : Go CostComponent.t :=
      let region := gjson.String (ResourceData.Get d "region") in
      let instanceType := gjson.String (ResourceData.Get d "instance_type") in
      let purchaseOptionLabel :=
        default "" (({[ "on_demand" := "on-demand"; "spot" := "spot" ]}
                       : gmap string string) !! purchaseOption) in
      os <- operatingSystemOf u ;;
      let '(osLabel, operatingSystem) := os in
      let '(purchaseOptionLabel, reservedIType, reservedTerm,
            reservedPaymentOption) :=
        match u with
        | Some u' =>
            if gjson.Exists (UsageData.Get u' "reserved_instance_type") then
              ("reserved",
               gjson.String (UsageData.Get u' "reserved_instance_type"),
               (if gjson.Exists (UsageData.Get u' "reserved_instance_term")
                then gjson.String (UsageData.Get u' "reserved_instance_term")
                else ""),
               (if gjson.Exists (UsageData.Get u' "reserved_instance_payment_option")
                then gjson.String (UsageData.Get u' "reserved_instance_payment_option")
                else ""))
            else (purchaseOptionLabel, "", "", "")
        | None => (purchaseOptionLabel, "", "", "")
        end in
      if decide (reservedIType <> "") then
        ret (reservedInstanceCostComponent region osLabel purchaseOptionLabel
               reservedIType reservedTerm reservedPaymentOption tenancy
               instanceType operatingSystem 1)
      else
        ret {| CostComponent.Name :=
                 "Instance usage (" +:+ osLabel +:+ ", " +:+ purchaseOptionLabel
                   +:+ ", " +:+ instanceType +:+ ")";
               CostComponent.Unit := "hours";
               CostComponent.UnitMultiplier := 1;
               CostComponent.IgnoreIfMissingPrice := false;
               CostComponent.HourlyQuantity := decimalPtr (decimal.NewFromInt 1);
               CostComponent.MonthlyQuantity := None;
               CostComponent.ProductFilter := Some
                 {| ProductFilter.VendorName := strPtr "aws";
                    ProductFilter.Region := strPtr region;
                    ProductFilter.Service := strPtr "AmazonEC2";
                    ProductFilter.ProductFamily := strPtr "Compute Instance";
                    ProductFilter.AttributeFilters :=
                      [ AttributeFilter.New "instanceType" (strPtr instanceType) None;
                        AttributeFilter.New "tenancy" (strPtr tenancy) None;
                        AttributeFilter.New "operatingSystem" (strPtr operatingSystem) None;
                        AttributeFilter.New "preInstalledSw" (strPtr "NA") None;
                        AttributeFilter.New "capacitystatus" (strPtr "Used") None ] |};
               CostComponent.PriceFilter := Some
                 {| PriceFilter.PurchaseOption := Some purchaseOption;
                    PriceFilter.StartUsageAmount := None;
                    PriceFilter.TermOfferingClass := None;
                    PriceFilter.TermLength := None;
                    PriceFilter.TermPurchaseOption := None |} |}.

Definition ebsOptimizedCostComponent (d : ResourceData.t) : CostComponent.t :=
      let region := gjson.String (ResourceData.Get d "region") in
      let instanceType := gjson.String (ResourceData.Get d "instance_type") in
      {| CostComponent.Name := "EBS-optimized usage";
         CostComponent.Unit := "hours";
         CostComponent.UnitMultiplier := 1;
         CostComponent.IgnoreIfMissingPrice := true;
         CostComponent.HourlyQuantity := decimalPtr (decimal.NewFromInt 1);
         CostComponent.MonthlyQuantity := None;
         CostComponent.ProductFilter := Some
           {| ProductFilter.VendorName := strPtr "aws";
              ProductFilter.Region := strPtr region;
              ProductFilter.Service := strPtr "AmazonEC2";
              ProductFilter.ProductFamily := strPtr "Compute Instance";
              ProductFilter.AttributeFilters :=
                [ AttributeFilter.New "instanceType" (strPtr instanceType) None;
                  AttributeFilter.New "usagetype" None (strPtr "/EBSOptimized/") ] |};
         CostComponent.PriceFilter := None |}.

Definition detailedMonitoringCostComponent (d : ResourceData.t)
      : Go CostComponent.t :=
      let region := gjson.String (ResourceData.Get d "region") in
      metricCount <- read_defaultEC2InstanceMetricCount ;;
      ret {| CostComponent.Name := "EC2 detailed monitoring";
             CostComponent.Unit := "metrics";
             CostComponent.UnitMultiplier := 1;
             CostComponent.IgnoreIfMissingPrice := true;
             CostComponent.HourlyQuantity := None;
             CostComponent.MonthlyQuantity :=
               decimalPtr (decimal.NewFromInt metricCount);
             CostComponent.ProductFilter := Some
               {| ProductFilter.VendorName := strPtr "aws";
                  ProductFilter.Region := strPtr region;
                  ProductFilter.Service := strPtr "AmazonCloudWatch";
                  ProductFilter.ProductFamily := strPtr "Metric";
                  ProductFilter.AttributeFilters := [] |};
             CostComponent.PriceFilter := Some
               {| PriceFilter.PurchaseOption := None;
                  PriceFilter.StartUsageAmount := strPtr "0";
                  PriceFilter.TermOfferingClass := None;
                  PriceFilter.TermLength := None;
                  PriceFilter.TermPurchaseOption := None |} |}.

    (** [None] is the nil component. *)
Definition cpuCreditsCostComponent (d : ResourceData.t)
      : option CostComponent.t :=
      let region := gjson.String (ResourceData.Get d "region") in
      let instanceType := gjson.String (ResourceData.Get d "instance_type") in
      let cpuCredits :=
        gjson.String (ResourceData.Get d "credit_specification.0.cpu_credits") in
      let cpuCredits :=
        if bool_decide (cpuCredits = "")
           && (strings.HasPrefix instanceType "t3."
               || strings.HasPrefix instanceType "t4g.")
        then "unlimited" else cpuCredits in
      if decide (cpuCredits <> "unlimited") then None
      else
        let prefix := strings.before_first "." instanceType in
        Some
          {| CostComponent.Name := "CPU credits";
             CostComponent.Unit := "vCPU-hours";
             CostComponent.UnitMultiplier := 1;
             CostComponent.IgnoreIfMissingPrice := false;
             CostComponent.HourlyQuantity := None;
             CostComponent.MonthlyQuantity := None;
             CostComponent.ProductFilter := Some
               {| ProductFilter.VendorName := strPtr "aws";
                  ProductFilter.Region := strPtr region;
                  ProductFilter.Service := strPtr "AmazonEC2";
                  ProductFilter.ProductFamily := strPtr "CPU Credits";
                  ProductFilter.AttributeFilters :=
                    [ AttributeFilter.New "operatingSystem" (strPtr "Linux") None;
                      AttributeFilter.New "usagetype" None
                        (strPtr ("/CPUCredits:" +:+ prefix +:+ "$/")) ] |};
             CostComponent.PriceFilter := None |}.

    (** The handler of [aws_instance]; [None] is the nil result that makes
        the caller skip the resource. *)
Definition NewInstance (d : ResourceData.t) (u : option UsageData.t)
      : Go (option Resource.t) :=
      if decide (gjson.String (ResourceData.Get d "tenancy") = "host") then
        Warnf ("Skipping resource " +:+ ResourceData.Address d
                 +:+ ". Infracost currently does not support host tenancy for AWS EC2 instances") ;;;
        ret None
      else
        let tenancy :=
          if decide (gjson.String (ResourceData.Get d "tenancy") = "dedicated")
          then "Dedicated" else "Shared" in
        let region := gjson.String (ResourceData.Get d "region") in
        let subResources : list Resource.t := [] in
        let subResources :=
          subResources
            ++ [newRootBlockDevice (ResourceData.Get d "root_block_device.0") region] in
        let subResources :=
          subResources
            ++ newEbsBlockDevices (ResourceData.Get d "ebs_block_device") region in
        compute <- computeCostComponent d u "on_demand" tenancy ;;
        let costComponents := [compute] in
        costComponents <-
          (if gjson.Bool (ResourceData.Get d "ebs_optimized")
           then ret (costComponents ++ [ebsOptimizedCostComponent d])
           else ret costComponents) ;;
        costComponents <-
          (if gjson.Bool (ResourceData.Get d "monitoring")
           then (monitoring <- detailedMonitoringCostComponent d ;;
                 ret (costComponents ++ [monitoring]))
           else ret costComponents) ;;
        let costComponents :=
          match cpuCreditsCostComponent d with
          | Some c => costComponents ++ [c]
          | None => costComponents
          end in
        ret (Some {| Resource.Name := ResourceData.Address d;
                     Resource.SubResources := subResources;
                     Resource.CostComponents := costComponents |}).

Definition GetInstanceRegistryItem : RegistryItem.t :=
  {| RegistryItem.Name := "aws_instance";
     RegistryItem.Notes :=
       [ "Costs associated with marketplace AMIs are not supported.";
         "For non-standard Linux AMIs such as Windows and RHEL, the operating system should be specified in usage file.";
         "EC2 detailed monitoring assumes the standard 7 metrics and the lowest tier of prices for CloudWatch.";
         "If a root volume is not specified then an 8Gi gp2 volume is assumed." ];
     RegistryItem.RFunc := NewInstance;
     RegistryItem.ReferenceAttributes := [] |}.

End instance.

End aws.

(** ** [internal/providers/terraform/azure]: the [azurerm_key_vault_key] handler *)
Module azure.

Import schema runtime.

Definition vaultKeysCostComponent
      (name location unit skuName meterName startUsage : string)
      (quantity : option decimal.Decimal) (multi : Z) : Go CostComponent.t :=
    quantity <-
      match quantity with
      | Some q =>
          match decimal.Div q (decimal.NewFromInt multi) with
          | Some r => ret (decimalPtr r)
          | None => panic "decimal division by 0"
          end
      | None => ret None
      end ;;
    ret {| CostComponent.Name := name;
           CostComponent.Unit := unit;
           CostComponent.UnitMultiplier := 1;
           CostComponent.IgnoreIfMissingPrice := false;
           CostComponent.HourlyQuantity := None;
           CostComponent.MonthlyQuantity := quantity;
           CostComponent.ProductFilter := Some
             {| ProductFilter.VendorName := strPtr "azure";
                ProductFilter.Region := strPtr location;
                ProductFilter.Service := strPtr "Key Vault";
                ProductFilter.ProductFamily := strPtr "Security";
                ProductFilter.AttributeFilters :=
                  [ AttributeFilter.New "productName" (strPtr "Key Vault") None;
                    AttributeFilter.New "skuName" (strPtr skuName) None;
                    AttributeFilter.New "meterName" (strPtr meterName) None ] |};
           CostComponent.PriceFilter := Some
             {| PriceFilter.PurchaseOption := strPtr "Consumption";
                PriceFilter.StartUsageAmount := strPtr startUsage;
                PriceFilter.TermOfferingClass := None;
                PriceFilter.TermLength := None;
                PriceFilter.TermPurchaseOption := None |} |}.

  (** The idiom the handler repeats for every usage key:
      [var x *decimal.Decimal;
       if u != nil && u.Get(key).Exists()
         { x = decimalPtr(decimal.NewFromInt(u.Get(key).Int())) }]. *)
Definition usageQuantity (u : option UsageData.t) (key : string)
    : option decimal.Decimal :=
    match u with
    | Some u' =>
        if gjson.Exists (UsageData.Get u' key)
        then decimalPtr (decimal.NewFromInt (gjson.Int (UsageData.Get u' key)))
        else None
    | None => None
    end.

  (** The handler of [azurerm_key_vault_key]; [None] is the nil result that
      makes the caller skip the resource. *)
Definition NewAzureKeyVaultKey (d : ResourceData.t) (u : option UsageData.t)
    : Go (option Resource.t) :=
    let keyVault := ResourceData.References d "key_vault_id" in
    keyVault0 <- at_index keyVault 0 ;;
    let location := gjson.String (ResourceData.Get keyVault0 "location") in
    if decide (location = "") then
      Warnf ("Skipping resource " +:+ ResourceData.Address d
               +:+ ". Infracost currently cannot find the location for this resource.") ;;;
      ret None
    else
      keyVault0 <- at_index keyVault 0 ;;
      let skuName :=
        strings.Title (gjson.String (ResourceData.Get keyVault0 "sku_name")) in
      let keyType := gjson.String (ResourceData.Get d "key_type") in
      let keySize :=
        if decide (gjson.TypeOf (ResourceData.Get d "key_size") <> gjson.Null)
        then gjson.String (ResourceData.Get d "key_size") else "" in
      let costComponents : list CostComponent.t := [] in
      let unit := "10K transactions" in

      let secretsTransactions := usageQuantity u "monthly_secrets_operations" in
      let meterName := "Operations" in
      c <- vaultKeysCostComponent "Secrets operations" location unit skuName
             meterName "0" secretsTransactions 10000 ;;
      let costComponents := costComponents ++ [c] in

      let certificateRenewals :=
        usageQuantity u "monthly_certificate_renewal_requests" in
      let meterName := "Certificate Renewal Request" in
      c <- vaultKeysCostComponent "Certificate operations" location "renewals"
             skuName meterName "0" certificateRenewals 1 ;;
      let costComponents := costComponents ++ [c] in

      let certificateOperations :=
        usageQuantity u "monthly_certificate_other_operations" in
      let meterName := "Operations" in
      c <- vaultKeysCostComponent "Certificate operations" location unit
             skuName meterName "0" certificateOperations 10000 ;;
      let costComponents := costComponents ++ [c] in

      let keyRotationRenewals := usageQuantity u "monthly_key_rotation_renewals" in
      let meterName := "Secret Renewal" in
      c <- vaultKeysCostComponent "Storage key rotation" location "renewals"
             skuName meterName "0" keyRotationRenewals 1 ;;
      let costComponents := costComponents ++ [c] in

      (* if !strings.HasSuffix(keyType, "HSM") *)
      software <-
        (if negb (strings.HasSuffix keyType "HSM") then
           let softwareProtectedTransactions :=
             usageQuantity u "monthly_protected_keys_operations" in
           let name := "Software-protected keys" in
           let meterName := "Operations" in
           if bool_decide (keyType = "RSA") && bool_decide (keySize = "2048") then
             c <- vaultKeysCostComponent name location unit skuName meterName
                    "0" softwareProtectedTransactions 10000 ;;
             ret (costComponents ++ [c], meterName)
           else
             let meterName := "Advanced Key Operations" in
             c <- vaultKeysCostComponent name location unit skuName meterName
                    "0" softwareProtectedTransactions 10000 ;;
             ret (costComponents ++ [c], meterName)
         else ret (costComponents, meterName)) ;;
      let '(costComponents, meterName) := software in

      (* if strings.HasSuffix(keyType, "HSM") && skuName == "Premium" *)
      costComponents <-
        (if strings.HasSuffix keyType "HSM" && bool_decide (skuName = "Premium")
         then
           let name := "HSM-protected keys" in
           let keyUnit := "months" in
           keys <-
             (match usageQuantity u "hsm_protected_keys" with
              | Some protectedKeys =>
                  if bool_decide (keyType = "RSA-HSM")
                     && bool_decide (keySize = "2048") then
                    let meterName := "Premium HSM-protected RSA 2048-bit key" in
                    c <- vaultKeysCostComponent name location keyUnit skuName
                           meterName "0" (Some protectedKeys) 1 ;;
                    ret (costComponents ++ [c], meterName)
                  else
                    let meterName := "Premium HSM-protected Advanced Key" in
                    let tierLimits := [250; 1250; 2500] in
                    let keysQuantities :=
                      usage.CalculateTierBuckets protectedKeys tierLimits in
                    q0 <- at_index keysQuantities 0 ;;
                    c <- vaultKeysCostComponent (name +:+ " (first 250)")
                           location keyUnit skuName meterName "0" (Some q0) 1 ;;
                    let costComponents := costComponents ++ [c] in
                    q1 <- at_index keysQuantities 1 ;;
                    costComponents <-
                      (if decimal.GreaterThan q1 decimal.Zero then
                         q1 <- at_index keysQuantities 1 ;;
                         c <- vaultKeysCostComponent (name +:+ " (next 1250)")
                                location keyUnit skuName meterName "250"
                                (Some q1) 1 ;;
                         ret (costComponents ++ [c])
                       else ret costComponents) ;;
                    q2 <- at_index keysQuantities 2 ;;
                    costComponents <-
                      (if decimal.GreaterThan q2 decimal.Zero then
                         q2 <- at_index keysQuantities 2 ;;
                         c <- vaultKeysCostComponent (name +:+ " (next 2500)")
                                location keyUnit skuName meterName "1500"
                                (Some q2) 1 ;;
                         ret (costComponents ++ [c])
                       else ret costComponents) ;;
                    q3 <- at_index keysQuantities 3 ;;
                    costComponents <-
                      (if decimal.GreaterThan q3 decimal.Zero then
                         q3 <- at_index keysQuantities 3 ;;
                         c <- vaultKeysCostComponent (name +:+ " (over 4000)")
                                location keyUnit skuName meterName "4000"
                                (Some q3) 1 ;;
                         ret (costComponents ++ [c])
                       else ret costComponents) ;;
                    ret (costComponents, meterName)
              | None =>
                  let unknown : option decimal.Decimal := None in
                  c <- vaultKeysCostComponent name location keyUnit skuName
                         meterName "0" unknown 1 ;;
                  ret (costComponents ++ [c], meterName)
              end) ;;
           let '(costComponents, meterName) := keys in
           match usageQuantity u "monthly_protected_keys_operations" with
           | Some hsmProtectedTransactions =>
               if bool_decide (keyType = "RSA") && bool_decide (keySize = "2048")
               then
                 let meterName := "Operations" in
                 c <- vaultKeysCostComponent name location unit skuName
                        meterName "0" (Some hsmProtectedTransactions) 10000 ;;
                 ret (costComponents ++ [c])
               else
                 let meterName := "Advanced Key Operations" in
                 c <- vaultKeysCostComponent name location unit skuName
                        meterName "0" (Some hsmProtectedTransactions) 10000 ;;
                 ret (costComponents ++ [c])
           | None => ret costComponents
           end
         else ret costComponents) ;;

      ret (Some {| Resource.Name := ResourceData.Address d;
                   Resource.SubResources := [];
                   Resource.CostComponents := costComponents |}).

Definition GetAzureKeyVaultKeyRegistryItem : RegistryItem.t :=
  {| RegistryItem.Name := "azurerm_key_vault_key";
     RegistryItem.Notes := [];
     RegistryItem.RFunc := NewAzureKeyVaultKey;
     RegistryItem.ReferenceAttributes := [ "key_vault_id" ] |}.

(** [registry.go]: the resource types of the provider that cost nothing,
    in the groups of the source (Base, Blueprints, Key Vault, Networking,
    Policy). [ResourceRegistry], the list of the registry items of the
    provider, is built from functions of other files and is not modelled. *)
Definition FreeResources : list string :=
  [ (* Azure Base *)
    "azurerm_resource_group";
    "azurerm_resource_provider_registration";
    "azurerm_subscription";
    (* Azure Blueprints *)
    "azurerm_blueprint_assignment";
    (* Azure Key Vault *)
    "azurerm_key_vault_access_policy";
    "azurerm_key_vault_certificate_data";
    "azurerm_key_vault_certificate_issuer";
    "azurerm_key_vault_secret";
    (* Azure Networking *)
    "azurerm_application_security_group";
    "azurerm_network_security_group";
    "azurerm_virtual_network";
    (* Azure Policy *)
    "azurerm_policy_assignment";
    "azurerm_policy_definition";
    "azurerm_policy_remediation";
    "azurerm_policy_set_definition" ].

Definition UsageOnlyResources : list string := [].

End azure.

(** ** Definitions used to state the properties *)

(** The struct literal of [vaultKeysCostComponent] with the quantity that
    ends up in [MonthlyQuantity]. *)
Definition vaultKeysRow (name location unit skuName meterName startUsage : string)
    (quantity : option decimal.Decimal) : schema.CostComponent.t :=
  {| schema.CostComponent.Name := name;
     schema.CostComponent.Unit := unit;
     schema.CostComponent.UnitMultiplier := 1;
     schema.CostComponent.IgnoreIfMissingPrice := false;
     schema.CostComponent.HourlyQuantity := None;
     schema.CostComponent.MonthlyQuantity := quantity;
     schema.CostComponent.ProductFilter := Some
       {| schema.ProductFilter.VendorName := Some "azure";
          schema.ProductFilter.Region := Some location;
          schema.ProductFilter.Service := Some "Key Vault";
          schema.ProductFilter.ProductFamily := Some "Security";
          schema.ProductFilter.AttributeFilters :=
            [ schema.AttributeFilter.New "productName" (Some "Key Vault") None;
              schema.AttributeFilter.New "skuName" (Some skuName) None;
              schema.AttributeFilter.New "meterName" (Some meterName) None ] |};
     schema.CostComponent.PriceFilter := Some
       {| schema.PriceFilter.PurchaseOption := Some "Consumption";
          schema.PriceFilter.StartUsageAmount := Some startUsage;
          schema.PriceFilter.TermOfferingClass := None;
          schema.PriceFilter.TermLength := None;
          schema.PriceFilter.TermPurchaseOption := None |} |}.

(** The quantity of a row: the given quantity divided by the block size,
    nil when no quantity is given. *)
Definition blockQuantity (quantity : option decimal.Decimal) (multi : Z)
  : option decimal.Decimal :=
  match quantity with
  | Some q => decimal.Div q (decimal.NewFromInt multi)
  | None => None
  end.

(** The block size that goes with a unit string. *)
Definition blockSize (unit : string) : Z :=
  if decide (unit = "10K transactions") then 10000 else 1.

(** The start-usage amount of a component, empty when it has none. *)
Definition startUsageOf (c : schema.CostComponent.t) : string :=
  default "" (pf ← schema.CostComponent.PriceFilter c;
              schema.PriceFilter.StartUsageAmount pf).

(** The world after the warnings [msgs] were written. *)
Definition with_warnings (w : runtime.World) (msgs : list string) : runtime.World :=
  {| runtime.defaultEC2InstanceMetricCount := runtime.defaultEC2InstanceMetricCount w;
     runtime.warnings := runtime.warnings w ++ msgs |}.


(** Two runs of a computation end the same way: the same panic, or the
    same result and the same new warnings. *)
Definition same_outcome {A} (m : runtime.Go A) (w v : runtime.World) : Prop :=
  match m w, m v with
  | runtime.Returns a w', runtime.Returns b v' =>
      a = b /\ exists msgs, w' = with_warnings w msgs /\ v' = with_warnings v msgs
  | runtime.Panics s, runtime.Panics t => s = t
  | _, _ => False
  end.

(** A computation that reads nothing of the world but the package
    variable and writes nothing but warnings. *)
Definition deterministic {A} (m : runtime.Go A) : Prop :=
  forall w v,
    runtime.defaultEC2InstanceMetricCount w = runtime.defaultEC2InstanceMetricCount v ->
    same_outcome m w v.

(** *** The rows of a key vault key

    The cost components [NewAzureKeyVaultKey] builds for a key whose vault
    has a location, block by block in the order of the source, as lists.
    [NewAzureKeyVaultKey_rows] below proves that the handler returns
    exactly these. *)
Section key_vault_rows.

Variables (location skuName keyType keySize : string).
Variable u : option schema.UsageData.t.

  (** The four components every key has. *)
Definition baseRows : list schema.CostComponent.t :=
    [ vaultKeysRow "Secrets operations" location "10K transactions" skuName
        "Operations" "0"
        (blockQuantity (azure.usageQuantity u "monthly_secrets_operations") 10000);
      vaultKeysRow "Certificate operations" location "renewals" skuName
        "Certificate Renewal Request" "0"
        (blockQuantity (azure.usageQuantity u "monthly_certificate_renewal_requests") 1);
      vaultKeysRow "Certificate operations" location "10K transactions" skuName
        "Operations" "0"
        (blockQuantity (azure.usageQuantity u "monthly_certificate_other_operations") 10000);
      vaultKeysRow "Storage key rotation" location "renewals" skuName
        "Secret Renewal" "0"
        (blockQuantity (azure.usageQuantity u "monthly_key_rotation_renewals") 1) ].

  (** The block guarded by [!strings.HasSuffix(keyType, "HSM")]. *)
Definition softwareRows : list schema.CostComponent.t :=
    if negb (strings.HasSuffix keyType "HSM") then
      [ vaultKeysRow "Software-protected keys" location "10K transactions" skuName
          (if bool_decide (keyType = "RSA") && bool_decide (keySize = "2048")
           then "Operations" else "Advanced Key Operations")
          "0"
          (blockQuantity (azure.usageQuantity u "monthly_protected_keys_operations") 10000) ]
    else [].

  (** The tier rows of the HSM-protected keys: the first bucket always,
      a later bucket when it is greater than zero. *)
Definition tierRows (keysQuantities : list decimal.Decimal)
    : list schema.CostComponent.t :=
    match keysQuantities with
    | [q0; q1; q2; q3] =>
        vaultKeysRow "HSM-protected keys (first 250)" location "months" skuName
          "Premium HSM-protected Advanced Key" "0" (blockQuantity (Some q0) 1)
        :: (if decimal.GreaterThan q1 decimal.Zero
            then [vaultKeysRow "HSM-protected keys (next 1250)" location "months"
                    skuName "Premium HSM-protected Advanced Key" "250"
                    (blockQuantity (Some q1) 1)]
            else [])
        ++ (if decimal.GreaterThan q2 decimal.Zero
            then [vaultKeysRow "HSM-protected keys (next 2500)" location "months"
                    skuName "Premium HSM-protected Advanced Key" "1500"
                    (blockQuantity (Some q2) 1)]
            else [])
        ++ (if decimal.GreaterThan q3 decimal.Zero
            then [vaultKeysRow "HSM-protected keys (over 4000)" location "months"
                    skuName "Premium HSM-protected Advanced Key" "4000"
                    (blockQuantity (Some q3) 1)]
            else [])
    | _ => []
    end.

  (** The first half of the block guarded by
      [strings.HasSuffix(keyType, "HSM") && skuName == "Premium"]: the keys
      themselves. Without usage the row keeps the meter name the variable
      [meterName] last held, "Secret Renewal". *)
Definition hsmKeyRows : list schema.CostComponent.t :=
    match azure.usageQuantity u "hsm_protected_keys" with
    | Some protectedKeys =>
        if bool_decide (keyType = "RSA-HSM") && bool_decide (keySize = "2048")
        then [ vaultKeysRow "HSM-protected keys" location "months" skuName
                 "Premium HSM-protected RSA 2048-bit key" "0"
                 (blockQuantity (Some protectedKeys) 1) ]
        else tierRows (usage.CalculateTierBuckets protectedKeys [250; 1250; 2500])
    | None =>
        [ vaultKeysRow "HSM-protected keys" location "months" skuName
            "Secret Renewal" "0" None ]
    end.

  (** The second half of that block: the operations on the keys. *)
Definition hsmOperationRows : list schema.CostComponent.t :=
    match azure.usageQuantity u "monthly_protected_keys_operations" with
    | Some hsmProtectedTransactions =>
        [ vaultKeysRow "HSM-protected keys" location "10K transactions" skuName
            (if bool_decide (keyType = "RSA") && bool_decide (keySize = "2048")
             then "Operations" else "Advanced Key Operations")
            "0" (blockQuantity (Some hsmProtectedTransactions) 10000) ]
    | None => []
    end.

Definition keyVaultKeyRows : list schema.CostComponent.t :=
    baseRows ++ softwareRows
      ++ (if strings.HasSuffix keyType "HSM" && bool_decide (skuName = "Premium")
          then hsmKeyRows ++ hsmOperationRows else []).

End key_vault_rows.

(** The key size the handler reads: the attribute's string unless it is
    null or missing. *)
Definition keySizeOf (d : schema.ResourceData.t) : string :=
  if decide (gjson.TypeOf (schema.ResourceData.Get d "key_size") <> gjson.Null)
  then gjson.String (schema.ResourceData.Get d "key_size") else "".

(** A component whose quantity is nil, or is an integer quantity divided
    exactly by the block size of the component's unit. *)
Definition exactOrNil (c : schema.CostComponent.t) : Prop :=
  match schema.CostComponent.MonthlyQuantity c with
  | None => True
  | Some x =>
      exists q, 0 <= decimal.exp q
                /\ (decimal.toQ x
                    == decimal.toQ q / inject_Z (blockSize (schema.CostComponent.Unit c)))%Q
  end.

(** *** Inputs for the examples *)
Module sample.

Import schema.

Definition object (members : list (string * gjson.Value)) : gjson.Result :=
    Some (gjson.VObject "" members).

Definition number (n : Z) : gjson.Value :=
    gjson.VNumber (strings.itoa n) (float64.of_Z n).

  (** A stand-in for [ebsVolumeCostComponents]: one storage component that
      records the region, the volume type and the size it is given. *)
Definition ebsVolumeCostComponents (region volumeAPIName : string)
      (throughputVal : option decimal.Decimal) (gbVal iopsVal : decimal.Decimal)
      (monthlyIORequests : option decimal.Decimal) : list CostComponent.t :=
    [ {| CostComponent.Name := "Storage";
         CostComponent.Unit := "GB-months";
         CostComponent.UnitMultiplier := 1;
         CostComponent.IgnoreIfMissingPrice := false;
         CostComponent.HourlyQuantity := None;
         CostComponent.MonthlyQuantity := Some gbVal;
         CostComponent.ProductFilter := Some
           {| ProductFilter.VendorName := Some "aws";
              ProductFilter.Region := Some region;
              ProductFilter.Service := Some "AmazonEC2";
              ProductFilter.ProductFamily := Some "Storage";
              ProductFilter.AttributeFilters :=
                [ AttributeFilter.New "volumeApiName" (Some volumeAPIName) None ] |};
         CostComponent.PriceFilter := None |} ].

  (** An instance on a dedicated host. *)
Definition hostInstance : ResourceData.t :=
    ResourceData.New "aws_instance.host"
      (object [ ("instance_type", gjson.VString "m5.large");
                ("region", gjson.VString "us-east-1");
                ("tenancy", gjson.VString "host") ])
      [].

  (** An instance of a family without CPU credits, with no root block
      device and no credit specification. *)
Definition plainInstance : ResourceData.t :=
    ResourceData.New "aws_instance.plain"
      (object [ ("instance_type", gjson.VString "m5.large");
                ("region", gjson.VString "us-east-1") ])
      [].

  (** A burstable instance with detailed monitoring and one extra volume. *)
Definition burstableInstance : ResourceData.t :=
    ResourceData.New "aws_instance.burstable"
      (object [ ("instance_type", gjson.VString "t3.micro");
                ("region", gjson.VString "us-east-1");
                ("monitoring", gjson.VTrue);
                ("ebs_block_device",
                 gjson.VArray "" [gjson.VObject "" [("volume_size", number 10)]]) ])
      [].

Definition reservedUsage : UsageData.t :=
    UsageData.New "aws_instance.plain"
      (list_to_map
         [ ("reserved_instance_type", Some (gjson.VString "standard"));
           ("reserved_instance_term", Some (gjson.VString "1_year"));
           ("reserved_instance_payment_option", Some (gjson.VString "no_upfront")) ]).

Definition solarisUsage : UsageData.t :=
    UsageData.New "aws_instance.plain"
      (list_to_map [ ("operating_system", Some (gjson.VString "Solaris")) ]).

Definition premiumVault : ResourceData.t :=
    ResourceData.New "azurerm_key_vault.premium"
      (object [ ("location", gjson.VString "westeurope");
                ("sku_name", gjson.VString "premium") ])
      [].

Definition standardVault : ResourceData.t :=
    ResourceData.New "azurerm_key_vault.standard"
      (object [ ("location", gjson.VString "westeurope");
                ("sku_name", gjson.VString "standard") ])
      [].

  (** A vault whose location is not known. *)
Definition unlocatedVault : ResourceData.t :=
    ResourceData.New "azurerm_key_vault.unlocated"
      (object [ ("sku_name", gjson.VString "premium") ])
      [].

Definition hsmKeyIn (vault : ResourceData.t) : ResourceData.t :=
    ResourceData.New "azurerm_key_vault_key.hsm"
      (object [ ("key_type", gjson.VString "EC-HSM") ])
      [ ("key_vault_id", [vault]) ].

  (** A key whose [key_vault_id] does not resolve to a resource. *)
Definition orphanKey : ResourceData.t :=
    ResourceData.New "azurerm_key_vault_key.orphan"
      (object [ ("key_type", gjson.VString "RSA");
                ("key_size", number 2048) ])
      [].

Definition keysUsage : UsageData.t :=
    UsageData.New "azurerm_key_vault_key.hsm"
      (list_to_map
         [ ("hsm_protected_keys", Some (number 3000));
           ("monthly_secrets_operations", Some (number 25000)) ]).

  (** A software-protected RSA key of size 2048. *)
Definition rsaKeyIn (vault : ResourceData.t) : ResourceData.t :=
    ResourceData.New "azurerm_key_vault_key.rsa"
      (object [ ("key_type", gjson.VString "RSA");
                ("key_size", number 2048) ])
      [ ("key_vault_id", [vault]) ].

  (** An HSM-protected RSA key of size 2048. *)
Definition rsaHsmKeyIn (vault : ResourceData.t) : ResourceData.t :=
    ResourceData.New "azurerm_key_vault_key.rsa_hsm"
      (object [ ("key_type", gjson.VString "RSA-HSM");
                ("key_size", number 2048) ])
      [ ("key_vault_id", [vault]) ].

  (** The key [hsmKeyIn vault] with a second vault behind the first and
      an attribute the handler does not read. *)
Definition hsmKeyInTwoVaults (vault other : ResourceData.t) : ResourceData.t :=
    ResourceData.New "azurerm_key_vault_key.hsm"
      (object [ ("key_type", gjson.VString "EC-HSM");
                ("name", gjson.VString "signing") ])
      [ ("key_vault_id", [vault; other]) ].

Definition operationsUsage : UsageData.t :=
    UsageData.New "azurerm_key_vault_key.hsm"
      (list_to_map
         [ ("hsm_protected_keys", Some (number 3000));
           ("monthly_protected_keys_operations", Some (number 50000)) ]).

  (** Usage data with none of the keys the key vault handler reads. *)
Definition unrelatedUsage : UsageData.t :=
    UsageData.New "azurerm_key_vault_key.hsm"
      (list_to_map [ ("monthly_requests", Some (number 100)) ]).

  (** Usage data that names a reserved term and payment option but no
      reserved instance type. *)
Definition termOnlyUsage : UsageData.t :=
    UsageData.New "aws_instance.plain"
      (list_to_map
         [ ("reserved_instance_term", Some (gjson.VString "1_year"));
           ("reserved_instance_payment_option",
            Some (gjson.VString "all_upfront")) ]).


End sample.

(** ** Facts about the library models *)

Section decimal_facts.

Import decimal.

Lemma QuoRem_is_Some d d2 precision :
    value d2 <> 0 -> is_Some (QuoRem d d2 precision).
Proof.
    intros Hnz. unfold QuoRem.
    destruct (decide (value d2 = 0)) as [|_]; [done|].
    destruct (decide (exp d - exp d2 - - precision < 0)); eauto.
Qed.

Lemma Div_is_Some d d2 : value d2 <> 0 -> is_Some (Div d d2).
Proof.
    intros Hnz. unfold Div, DivRound.
    destruct (QuoRem_is_Some d d2 DivisionPrecision Hnz) as [[q r] ->].
    cbv zeta.
    destruct (Cmp _ _); eauto;
      destruct (decide (Z.sgn (value d) * Z.sgn (value d2) < 0)); eauto.
Qed.

  (** Dividing by a power of ten that the sixteen places of the quotient
      can absorb leaves no remainder: the quotient is the same digits with
      the exponent moved. *)
Lemma Div_pow10 d k :
    0 <= k -> k <= exp d + 16 ->
    Div d (NewFromInt (10 ^ k)) = Some (New (value d * 10 ^ (exp d + 16 - k)) (- 16)).
Proof.
    intros Hk Hle.
    assert (Hpos : 0 < 10 ^ k) by (apply Z.pow_pos_nonneg; lia).
    unfold Div, DivRound, QuoRem, NewFromInt, DivisionPrecision. cbn [value exp].
    case_decide; [lia|]. case_decide; [lia|].
    replace (exp d - 0 - - (16)) with ((exp d + 16 - k) + k) by lia.
    rewrite Z.pow_add_r by lia.
    rewrite Z.mul_assoc, Z.quot_mul, Z.rem_mul by lia.
    cbn [value exp]. unfold Cmp, Abs. cbn [value exp].
    case_decide; [|lia].
    rewrite (Z.abs_eq (10 ^ k)) by lia.
    assert ((Z.abs 0 * 2 ?= 10 ^ k) = Lt) as ->
      by (apply Z.compare_lt_iff; simpl; lia).
    done.
Qed.

Lemma toQ_Div_pow10 d k :
    0 <= k -> k <= exp d + 16 ->
    (toQ (New (value d * 10 ^ (exp d + 16 - k)) (- 16))
     == toQ d / inject_Z (10 ^ k))%Q.
Proof.
    intros Hk Hle. unfold toQ. cbn [value exp].
    assert (H10 : ~ (10 == 0)%Q) by done.
    rewrite inject_Z_mult.
    rewrite !Zpower_Qpower by lia.
    change (inject_Z 10) with 10%Q.
    replace (exp d + 16 - k) with (exp d + (16 + - k)) by lia.
    rewrite !Qpower_plus by done.
    rewrite Qpower_opp.
    assert (Hk0 : ~ (10 ^ k == 0)%Q) by (by apply Qpower_not_0).
    assert (H16 : ~ (10 ^ 16 == 0)%Q) by (by apply Qpower_not_0).
    change (10 ^ (-16))%Q with (/ 10 ^ 16)%Q.
    generalize dependent (10 ^ k)%Q. generalize dependent (10 ^ 16)%Q.
    generalize (10 ^ exp d)%Q (inject_Z (value d)).
    intros a b c Hc e He. field. done.
Qed.

End decimal_facts.

Section runtime_facts.

Import runtime.

Lemma bind_ret {A B} (a : A) (k : A -> Go B) : bind (ret a) k = k a.
Proof. reflexivity. Qed.

Lemma bind_panic {A B} (msg : string) (k : A -> Go B) :
    bind (panic msg) k = panic msg.
Proof. reflexivity. Qed.

Lemma bind_assoc {A B C} (m : Go A) (k : A -> Go B) (h : B -> Go C) w :
    bind (bind m k) h w = bind m (fun a => bind (k a) h) w.
Proof. unfold bind. by destruct (m w). Qed.

Lemma at_index_Some {A} (l : list A) (i : nat) (a : A) :
    l !! i = Some a -> at_index l i = ret a.
Proof. intros H. unfold at_index. by rewrite H. Qed.

Lemma at_index_None {A} (l : list A) (i : nat) :
    l !! i = None ->
    at_index l i
    = panic ("runtime error: index out of range ["
               +:+ strings.itoa (Z.of_nat i) +:+ "] with length "
               +:+ strings.itoa (Z.of_nat (length l))).
Proof. intros H. unfold at_index. by rewrite H. Qed.

Lemma with_warnings_nil w : with_warnings w [] = w.
Proof. destruct w. unfold with_warnings. cbn. by rewrite app_nil_r. Qed.

Lemma with_warnings_app w l1 l2 :
    with_warnings (with_warnings w l1) l2 = with_warnings w (l1 ++ l2).
Proof. unfold with_warnings. cbn. by rewrite app_assoc. Qed.

Lemma Warnf_eq msg w : Warnf msg w = Returns tt (with_warnings w [msg]).
Proof. reflexivity. Qed.

  (** *** The rules of [returns] *)







  (** *** The rules of [deterministic] *)

Lemma deterministic_ret {A} (a : A) : deterministic (ret a).
Proof.
    intros w v _. unfold same_outcome, ret. split; [done|].
    exists []. by rewrite !with_warnings_nil.
Qed.

Lemma deterministic_panic {A} msg : deterministic (@panic A msg).
Proof. by intros w v _. Qed.

Lemma deterministic_Warnf msg : deterministic (Warnf msg).
Proof. intros w v _. unfold same_outcome. rewrite !Warnf_eq. eauto. Qed.

Lemma deterministic_read : deterministic read_defaultEC2InstanceMetricCount.
Proof.
    intros w v Hvar. unfold same_outcome, read_defaultEC2InstanceMetricCount.
    split; [done|]. exists []. by rewrite !with_warnings_nil.
Qed.

Lemma deterministic_bind {A B} (m : Go A) (k : A -> Go B) :
    deterministic m -> (forall a, deterministic (k a)) -> deterministic (bind m k).
Proof.
    intros Hm Hk w v Hvar. specialize (Hm w v Hvar).
    unfold same_outcome, bind in *.
    destruct (m w) as [a w'|s], (m v) as [b v'|t]; try done.
    destruct Hm as [<- (msgs & -> & ->)].
    specialize (Hk a (with_warnings w msgs) (with_warnings v msgs) Hvar).
    unfold same_outcome in Hk.
    destruct (k a (with_warnings w msgs)) as [c w''|s],
             (k a (with_warnings v msgs)) as [c' v''|t]; try done.
    destruct Hk as [<- (msgs' & -> & ->)]. split; [done|].
    exists (msgs ++ msgs'). by rewrite !with_warnings_app.
Qed.

Lemma deterministic_at_index {A} (l : list A) i : deterministic (at_index l i).
Proof.
    unfold at_index. destruct (l !! i);
      [apply deterministic_ret | apply deterministic_panic].
Qed.

End runtime_facts.

Section azure_facts.

Import schema runtime.

Lemma vaultKeysCostComponent_ret name location unit skuName meterName
      startUsage quantity multi :
    multi <> 0 ->
    azure.vaultKeysCostComponent name location unit skuName meterName
      startUsage quantity multi
    = ret (vaultKeysRow name location unit skuName meterName startUsage
             (blockQuantity quantity multi)).
Proof.
    intros Hnz. unfold azure.vaultKeysCostComponent, blockQuantity.
    destruct quantity as [q|]; [|reflexivity].
    destruct (Div_is_Some q (decimal.NewFromInt multi) Hnz) as [r ->].
    reflexivity.
Qed.

Lemma vaultKeysCostComponent_nil name location unit skuName meterName
      startUsage multi :
    azure.vaultKeysCostComponent name location unit skuName meterName
      startUsage None multi
    = ret (vaultKeysRow name location unit skuName meterName startUsage None).
Proof. reflexivity. Qed.

End azure_facts.



Section aws_facts.

Import schema runtime.

Variable ebsVolumeCostComponents :
    string -> string -> option decimal.Decimal -> decimal.Decimal ->
    decimal.Decimal -> option decimal.Decimal -> list CostComponent.t.

Local Abbreviation NewInstance := (aws.NewInstance ebsVolumeCostComponents).
Local Abbreviation newRootBlockDevice := (aws.newRootBlockDevice ebsVolumeCostComponents).
Local Abbreviation newEbsBlockDevices := (aws.newEbsBlockDevices ebsVolumeCostComponents).

  (** The operating-system block returns a pair and writes at most one
      warning. *)
Lemma operatingSystemOf_total u w :
    exists p msgs, aws.operatingSystemOf u w = Returns p (with_warnings w msgs).
Proof.
    unfold aws.operatingSystemOf.
    destruct u as [u'|]; [destruct (gjson.Exists _)|];
      repeat case_decide;
      first [ by eexists _, [_]
            | eexists _, []; by rewrite with_warnings_nil ].
Qed.




End aws_facts.

Ltac deterministic_step :=
  lazymatch goal with
  | |- deterministic (runtime.bind _ _) =>
      apply deterministic_bind; [| intros ?]
  | |- deterministic (runtime.ret _) => apply deterministic_ret
  | |- deterministic (runtime.panic _) => apply deterministic_panic
  | |- deterministic (runtime.Warnf _) => apply deterministic_Warnf
  | |- deterministic runtime.read_defaultEC2InstanceMetricCount =>
      apply deterministic_read
  | |- deterministic (runtime.at_index _ _) => apply deterministic_at_index
  | |- deterministic _ => first [ progress cbv beta zeta | case_match ]
  end.

Section determinism.

Import schema runtime.

Lemma operatingSystemOf_deterministic u :
    deterministic (aws.operatingSystemOf u).
Proof. unfold aws.operatingSystemOf. repeat deterministic_step. Qed.

Lemma computeCostComponent_deterministic d u purchaseOption tenancy :
    deterministic (aws.computeCostComponent d u purchaseOption tenancy).
Proof.
    unfold aws.computeCostComponent. cbv zeta.
    apply deterministic_bind; [apply operatingSystemOf_deterministic|].
    intros [osLabel operatingSystem]. repeat deterministic_step.
Qed.

Lemma NewInstance_deterministic ebs d u :
    deterministic (aws.NewInstance ebs d u).
Proof.
    unfold aws.NewInstance, aws.detailedMonitoringCostComponent.
    case_decide; [repeat deterministic_step|]. cbv zeta.
    apply deterministic_bind; [apply computeCostComponent_deterministic|].
    intros compute. repeat deterministic_step.
Qed.

Lemma vaultKeysCostComponent_deterministic name location unit skuName
      meterName startUsage quantity multi :
    deterministic
      (azure.vaultKeysCostComponent name location unit skuName meterName
         startUsage quantity multi).
Proof. unfold azure.vaultKeysCostComponent. repeat deterministic_step. Qed.

Lemma NewAzureKeyVaultKey_deterministic d u :
    deterministic (azure.NewAzureKeyVaultKey d u).
Proof.
    unfold azure.NewAzureKeyVaultKey.
    repeat first
      [ apply vaultKeysCostComponent_deterministic
      | deterministic_step ].
Qed.

  (** A deterministic computation leaves the package variable as it found
      it and only appends to the warnings. *)
Lemma deterministic_frame {A} (m : Go A) w a w' :
    deterministic m -> m w = Returns a w' ->
    exists msgs, w' = with_warnings w msgs.
Proof.
    intros Hm Hrun. specialize (Hm w w eq_refl). unfold same_outcome in Hm.
    rewrite Hrun in Hm. destruct Hm as (_ & msgs & -> & _). eauto.
Qed.

End determinism.

Section key_vault_facts.

Import schema runtime.

Lemma usageQuantity_present u key :
    gjson.Exists (UsageData.Get u key) = true ->
    azure.usageQuantity (Some u) key
    = Some (decimal.NewFromInt (gjson.Int (UsageData.Get u key))).
Proof. intros H. unfold azure.usageQuantity. by rewrite H. Qed.

Lemma usageQuantity_absent u key :
    gjson.Exists (UsageData.Get u key) = false ->
    azure.usageQuantity (Some u) key = None.
Proof. intros H. unfold azure.usageQuantity. by rewrite H. Qed.

Lemma usageQuantity_integer u key q :
    azure.usageQuantity u key = Some q -> 0 <= decimal.exp q.
Proof.
    unfold azure.usageQuantity. destruct u as [u'|]; [|done].
    destruct (gjson.Exists _); [|done]. by intros [= <-].
Qed.

Lemma Sub_exp d d2 :
    decimal.exp (decimal.Sub d d2) = Z.min (decimal.exp d) (decimal.exp d2).
Proof.
    unfold decimal.Sub, decimal.RescalePair, decimal.rescale.
    repeat case_decide; cbn; lia.
Qed.

Lemma CalculateTierBuckets_length q limits :
    length (usage.CalculateTierBuckets q limits) = S (length limits).
Proof.
    revert q. induction limits as [|limit rest IH]; intros q; [done|].
    cbn. by rewrite IH.
Qed.

Lemma CalculateTierBuckets_integer q limits :
    0 <= decimal.exp q ->
    Forall (fun b => 0 <= decimal.exp b) (usage.CalculateTierBuckets q limits).
Proof.
    revert q. induction limits as [|limit rest IH]; intros q Hq; cbn.
    - by apply List.Forall_cons.
    - apply List.Forall_cons.
      + by destruct (decimal.LessThan _ _).
      + apply IH. rewrite Sub_exp. destruct (decimal.LessThan _ _); cbn; lia.
Qed.

  (** The handler prices a key in four buckets: the allocator is called
      with three limits. *)
Lemma key_tier_buckets q :
    exists q0 q1 q2 q3,
      usage.CalculateTierBuckets q [250; 1250; 2500] = [q0; q1; q2; q3].
Proof.
    pose proof (CalculateTierBuckets_length q [250; 1250; 2500]) as Hlen.
    destruct (usage.CalculateTierBuckets q [250; 1250; 2500])
      as [|q0 [|q1 [|q2 [|q3 [|q4 l]]]]]; try done.
    eauto.
Qed.

End key_vault_facts.


(** *** Running a computation step by step *)

Section evaluation.

Import schema runtime.

Lemma run_ret {A} (a : A) w : ret a w = Returns a w.
Proof. reflexivity. Qed.

Lemma run_bind_ret {A B} (a : A) (k : A -> Go B) w o :
    k a w = o -> bind (ret a) k w = o.
Proof. done. Qed.

Lemma run_bind_bind {A B C} (m : Go A) (k : A -> Go B) (h : B -> Go C) w o :
    bind m (fun a => bind (k a) h) w = o -> bind (bind m k) h w = o.
Proof. intros <-. apply bind_assoc. Qed.

Lemma run_bind_at_index {A B} (l : list A) i a (k : A -> Go B) w o :
    l !! i = Some a -> k a w = o -> bind (at_index l i) k w = o.
Proof. intros Hl <-. by rewrite (at_index_Some l i a Hl). Qed.

Lemma run_bind_vaultKeysCostComponent {B} name location unit skuName
      meterName startUsage quantity multi (k : CostComponent.t -> Go B) w o :
    multi <> 0 ->
    k (vaultKeysRow name location unit skuName meterName startUsage
         (blockQuantity quantity multi)) w = o ->
    bind (azure.vaultKeysCostComponent name location unit skuName meterName
            startUsage quantity multi) k w = o.
Proof. intros Hnz <-. by rewrite vaultKeysCostComponent_ret. Qed.

End evaluation.

Ltac run_step :=
  lazymatch goal with
  | |- runtime.bind (runtime.bind _ _) _ _ = _ => apply run_bind_bind
  | |- runtime.bind (runtime.ret _) _ _ = _ => apply run_bind_ret
  | |- runtime.bind (runtime.at_index _ _) _ _ = _ =>
      eapply run_bind_at_index; [reflexivity|]
  | |- runtime.bind (azure.vaultKeysCostComponent _ _ _ _ _ _ _ _) _ _ = _ =>
      apply run_bind_vaultKeysCostComponent; [lia|]
  | |- runtime.ret _ _ = _ => rewrite run_ret
  end;
  cbv beta iota zeta.

Section key_vault_handler.

Import schema runtime.

  (** For a key whose vault is resolved and has a location, the handler
      returns the rows above, writes no warning and does not panic. *)
Lemma NewAzureKeyVaultKey_rows d u w kv rest :
    ResourceData.References d "key_vault_id" = kv :: rest ->
    gjson.String (ResourceData.Get kv "location") <> "" ->
    azure.NewAzureKeyVaultKey d u w
    = Returns
        (Some {| Resource.Name := ResourceData.Address d;
                 Resource.SubResources := [];
                 Resource.CostComponents :=
                   keyVaultKeyRows
                     (gjson.String (ResourceData.Get kv "location"))
                     (strings.Title (gjson.String (ResourceData.Get kv "sku_name")))
                     (gjson.String (ResourceData.Get d "key_type"))
                     (keySizeOf d) u |})
        w.
Proof.
    intros Hrefs Hloc.
    unfold azure.NewAzureKeyVaultKey, keyVaultKeyRows, softwareRows, hsmKeyRows,
      hsmOperationRows, baseRows.
    fold (keySizeOf d). cbv zeta. rewrite Hrefs. run_step.
    destruct (decide _) as [|_]; [done|]. run_step.
    generalize (keySizeOf d) (gjson.String (ResourceData.Get d "key_type"))
      (strings.Title (gjson.String (ResourceData.Get kv "sku_name")))
      (gjson.String (ResourceData.Get kv "location")).
    intros keySize keyType skuName location.
    do 4 run_step.
    destruct (strings.HasSuffix keyType "HSM"); cbn [negb andb]; repeat run_step.
    - destruct (bool_decide (skuName = "Premium")); repeat run_step; [|reflexivity].
      generalize (bool_decide (keyType = "RSA") && bool_decide (keySize = "2048")).
      intros rsa.
      destruct (azure.usageQuantity u "hsm_protected_keys") as [protectedKeys|];
        repeat run_step.
      + destruct (key_tier_buckets protectedKeys) as (q0 & q1 & q2 & q3 & ->).
        unfold tierRows.
        destruct (bool_decide (keyType = "RSA-HSM") && bool_decide (keySize = "2048"));
          repeat run_step.
        * destruct (azure.usageQuantity u "monthly_protected_keys_operations");
            repeat run_step; [destruct rsa|]; repeat run_step; reflexivity.
        * destruct (decimal.GreaterThan q1 decimal.Zero); repeat run_step;
          destruct (decimal.GreaterThan q2 decimal.Zero); repeat run_step;
          destruct (decimal.GreaterThan q3 decimal.Zero); repeat run_step;
          (destruct (azure.usageQuantity u "monthly_protected_keys_operations");
           repeat run_step; [destruct rsa|]; repeat run_step; reflexivity).
      + destruct (azure.usageQuantity u "monthly_protected_keys_operations");
          repeat run_step; [destruct rsa|]; repeat run_step; reflexivity.
    - destruct (bool_decide (keyType = "RSA") && bool_decide (keySize = "2048"));
        repeat run_step; reflexivity.
Qed.

End key_vault_handler.

(** ** The properties of the handlers *)

(** C1. A key whose [key_vault_id] reference resolves to nothing makes
    [NewAzureKeyVaultKey] panic: the handler indexes element 0 of the empty
    sequence before any check, so the resource is not skipped. *)
Theorem key_without_vault_panics d u w :
  schema.ResourceData.References d "key_vault_id" = [] ->
  azure.NewAzureKeyVaultKey d u w
  = runtime.Panics "runtime error: index out of range [0] with length 0".
Proof.
  intros Hrefs. unfold azure.NewAzureKeyVaultKey. cbv zeta. rewrite Hrefs.
  reflexivity.
Qed.

Lemma key_without_vault_panics_witness :
  azure.NewAzureKeyVaultKey sample.orphanKey None runtime.initial
  = runtime.Panics "runtime error: index out of range [0] with length 0".
Proof. apply (key_without_vault_panics sample.orphanKey). reflexivity. Defined.

(** C2. An instance with tenancy "host" makes [NewInstance] return nil
    after one warning that names the resource address; a key whose vault
    has an empty location makes [NewAzureKeyVaultKey] return nil after one
    warning that names the resource address. Nothing is priced in either
    case. *)
Theorem unsupported_resource_skipped_with_warning :
  (forall ebs d u w,
     gjson.String (schema.ResourceData.Get d "tenancy") = "host" ->
     aws.NewInstance ebs d u w
     = runtime.Returns None
         (with_warnings w
            ["Skipping resource " +:+ schema.ResourceData.Address d
               +:+ ". Infracost currently does not support host tenancy for AWS EC2 instances"]))
  /\ (forall d u w kv rest,
        schema.ResourceData.References d "key_vault_id" = kv :: rest ->
        gjson.String (schema.ResourceData.Get kv "location") = "" ->
        azure.NewAzureKeyVaultKey d u w
        = runtime.Returns None
            (with_warnings w
               ["Skipping resource " +:+ schema.ResourceData.Address d
                  +:+ ". Infracost currently cannot find the location for this resource."])).
Proof.
  split.
  - intros ebs d u w Hhost. unfold aws.NewInstance.
    destruct (decide _) as [_|]; [reflexivity | done].
  - intros d u w kv rest Hrefs Hloc.
    unfold azure.NewAzureKeyVaultKey. cbv zeta. rewrite Hrefs. run_step.
    destruct (decide _) as [_|]; [reflexivity | done].
Qed.

Lemma unsupported_resource_skipped_with_warning_witness :
  aws.NewInstance sample.ebsVolumeCostComponents sample.hostInstance None
    runtime.initial
  = runtime.Returns None
      (with_warnings runtime.initial
         ["Skipping resource aws_instance.host. Infracost currently does not support host tenancy for AWS EC2 instances"])
  /\ azure.NewAzureKeyVaultKey (sample.hsmKeyIn sample.unlocatedVault) None
       runtime.initial
     = runtime.Returns None
         (with_warnings runtime.initial
            ["Skipping resource azurerm_key_vault_key.hsm. Infracost currently cannot find the location for this resource."]).
Proof.
  split.
  - apply (proj1 unsupported_resource_skipped_with_warning). reflexivity.
  - apply (proj2 unsupported_resource_skipped_with_warning
             (sample.hsmKeyIn sample.unlocatedVault) None runtime.initial
             sample.unlocatedVault []); reflexivity.
Defined.






(** C5. Usage data with a non-empty [reserved_instance_type], a term and a
    payment option make [computeCostComponent] return the reserved
    component: the price filter carries the offering class, the term length
    and the payment option and no purchase option, and the name contains
    the label "reserved". *)
Theorem reserved_usage_gives_reserved_component d u purchaseOption tenancy w :
  gjson.Exists (schema.UsageData.Get u "reserved_instance_type") = true ->
  gjson.String (schema.UsageData.Get u "reserved_instance_type") <> "" ->
  gjson.Exists (schema.UsageData.Get u "reserved_instance_term") = true ->
  gjson.Exists (schema.UsageData.Get u "reserved_instance_payment_option") = true ->
  exists cc w' osLabel operatingSystem,
    aws.computeCostComponent d (Some u) purchaseOption tenancy w
    = runtime.Returns cc w'
    /\ cc = aws.reservedInstanceCostComponent
              (gjson.String (schema.ResourceData.Get d "region"))
              osLabel "reserved"
              (gjson.String (schema.UsageData.Get u "reserved_instance_type"))
              (gjson.String (schema.UsageData.Get u "reserved_instance_term"))
              (gjson.String (schema.UsageData.Get u "reserved_instance_payment_option"))
              tenancy
              (gjson.String (schema.ResourceData.Get d "instance_type"))
              operatingSystem 1
    /\ (exists pf,
          schema.CostComponent.PriceFilter cc = Some pf
          /\ schema.PriceFilter.TermOfferingClass pf
             = Some (gjson.String (schema.UsageData.Get u "reserved_instance_type"))
          /\ is_Some (schema.PriceFilter.TermLength pf)
          /\ is_Some (schema.PriceFilter.TermPurchaseOption pf)
          /\ schema.PriceFilter.PurchaseOption pf = None)
    /\ schema.CostComponent.Name cc
       = "Instance usage (" +:+ osLabel +:+ ", " +:+ "reserved" +:+ ", "
           +:+ gjson.String (schema.ResourceData.Get d "instance_type") +:+ ")".
Proof.
  intros Htype Hnonempty Hterm Hpay.
  destruct (operatingSystemOf_total (Some u) w)
    as ([osLabel operatingSystem] & msgs & Hos).
  exists (aws.reservedInstanceCostComponent
            (gjson.String (schema.ResourceData.Get d "region"))
            osLabel "reserved"
            (gjson.String (schema.UsageData.Get u "reserved_instance_type"))
            (gjson.String (schema.UsageData.Get u "reserved_instance_term"))
            (gjson.String (schema.UsageData.Get u "reserved_instance_payment_option"))
            tenancy
            (gjson.String (schema.ResourceData.Get d "instance_type"))
            operatingSystem 1),
    (with_warnings w msgs), osLabel, operatingSystem.
  split; [|split; [reflexivity|split; [|reflexivity]]].
  - unfold aws.computeCostComponent. cbv zeta. unfold runtime.bind at 1.
    rewrite Hos, Htype, Hterm, Hpay. cbv beta iota zeta.
    destruct (decide _) as [_|]; [reflexivity | done].
  - eexists. split; [reflexivity|]. cbn. eauto.
Qed.

Lemma reserved_usage_gives_reserved_component_witness :
  exists cc w' osLabel operatingSystem,
    aws.computeCostComponent sample.plainInstance (Some sample.reservedUsage)
      "on_demand" "Shared" runtime.initial
    = runtime.Returns cc w'
    /\ cc = aws.reservedInstanceCostComponent "us-east-1" osLabel "reserved"
              "standard" "1_year" "no_upfront" "Shared" "m5.large"
              operatingSystem 1
    /\ (exists pf,
          schema.CostComponent.PriceFilter cc = Some pf
          /\ schema.PriceFilter.TermOfferingClass pf = Some "standard"
          /\ is_Some (schema.PriceFilter.TermLength pf)
          /\ is_Some (schema.PriceFilter.TermPurchaseOption pf)
          /\ schema.PriceFilter.PurchaseOption pf = None)
    /\ schema.CostComponent.Name cc
       = "Instance usage (" +:+ osLabel +:+ ", " +:+ "reserved" +:+ ", "
           +:+ "m5.large" +:+ ")".
Proof.
  apply (reserved_usage_gives_reserved_component sample.plainInstance
           sample.reservedUsage "on_demand" "Shared" runtime.initial).
  - reflexivity.
  - vm_compute. discriminate.
  - reflexivity.
  - reflexivity.
Defined.

(** C8. An operating system in the usage data that is, in lower case,
    none of "windows", "rhel", "suse" and "linux" makes
    [computeCostComponent] write one warning and still return a component,
    labelled "Linux/UNIX" and filtered on [operatingSystem = "Linux"]. *)
Theorem unknown_operating_system_falls_back_to_linux d u purchaseOption tenancy w :
  gjson.Exists (schema.UsageData.Get u "operating_system") = true ->
  let os :=
    strings.ToLower (gjson.String (schema.UsageData.Get u "operating_system")) in
  os <> "windows" -> os <> "rhel" -> os <> "suse" -> os <> "linux" ->
  exists cc rest pf,
    aws.computeCostComponent d (Some u) purchaseOption tenancy w
    = runtime.Returns cc
        (with_warnings w
           ["Unrecognized operating system " +:+ os +:+ ", defaulting to Linux/UNIX"])
    /\ schema.CostComponent.Name cc = "Instance usage (Linux/UNIX, " +:+ rest
    /\ schema.CostComponent.ProductFilter cc = Some pf
    /\ schema.ProductFilter.AttributeFilters pf !! 2%nat
       = Some (schema.AttributeFilter.New "operatingSystem" (Some "Linux") None).
Proof.
  intros Hexists os Hwindows Hrhel Hsuse Hlinux.
  assert (Hos : aws.operatingSystemOf (Some u) w
                = runtime.Returns ("Linux/UNIX", "Linux")
                    (with_warnings w
                       ["Unrecognized operating system " +:+ os
                          +:+ ", defaulting to Linux/UNIX"])).
  { unfold aws.operatingSystemOf. cbv zeta. rewrite Hexists. fold os.
    repeat case_decide; first [ done | reflexivity ]. }
  unfold aws.computeCostComponent. cbv zeta. unfold runtime.bind at 1.
  rewrite Hos. cbv beta iota zeta.
  destruct (gjson.Exists (schema.UsageData.Get u "reserved_instance_type"));
    case_decide; eexists _, _, _;
    (split; [reflexivity|]); (split; [reflexivity|]); split; reflexivity.
Qed.

Lemma unknown_operating_system_falls_back_to_linux_witness :
  exists cc rest pf,
    aws.computeCostComponent sample.plainInstance (Some sample.solarisUsage)
      "on_demand" "Shared" runtime.initial
    = runtime.Returns cc
        (with_warnings runtime.initial
           ["Unrecognized operating system " +:+ "solaris"
              +:+ ", defaulting to Linux/UNIX"])
    /\ schema.CostComponent.Name cc = "Instance usage (Linux/UNIX, " +:+ rest
    /\ schema.CostComponent.ProductFilter cc = Some pf
    /\ schema.ProductFilter.AttributeFilters pf !! 2%nat
       = Some (schema.AttributeFilter.New "operatingSystem" (Some "Linux") None).
Proof.
  apply (unknown_operating_system_falls_back_to_linux sample.plainInstance
           sample.solarisUsage "on_demand" "Shared" runtime.initial).
  - reflexivity.
  - vm_compute. discriminate.
  - vm_compute. discriminate.
  - vm_compute. discriminate.
  - vm_compute. discriminate.
Defined.

(** C9. Both handlers are deterministic: run in two worlds that agree on
    the package variable, a handler ends in the same way, with the same
    result and the same new warnings, or with the same panic; in
    particular a second invocation after the first returns the same
    resource tree. *)
Theorem handlers_are_deterministic ebs d u :
  (forall w v,
     runtime.defaultEC2InstanceMetricCount w = runtime.defaultEC2InstanceMetricCount v ->
     same_outcome (aws.NewInstance ebs d u) w v
     /\ same_outcome (azure.NewAzureKeyVaultKey d u) w v)
  /\ (forall w r w1,
        aws.NewInstance ebs d u w = runtime.Returns r w1 ->
        exists w2, aws.NewInstance ebs d u w1 = runtime.Returns r w2)
  /\ (forall w r w1,
        azure.NewAzureKeyVaultKey d u w = runtime.Returns r w1 ->
        exists w2, azure.NewAzureKeyVaultKey d u w1 = runtime.Returns r w2).
Proof.
  assert (Hagain : forall (m : runtime.Go (option schema.Resource.t)) w r w1,
             deterministic m -> m w = runtime.Returns r w1 ->
             exists w2, m w1 = runtime.Returns r w2).
  { intros m w r w1 Hm Hrun.
    destruct (deterministic_frame m w r w1 Hm Hrun) as [msgs ->].
    specialize (Hm w (with_warnings w msgs) eq_refl).
    unfold same_outcome in Hm. rewrite Hrun in Hm.
    destruct (m (with_warnings w msgs)) as [r' w2|]; [|done].
    destruct Hm as [-> _]. eauto. }
  split; [|split].
  - intros w v Hvar. split.
    + by apply NewInstance_deterministic.
    + by apply NewAzureKeyVaultKey_deterministic.
  - intros w r w1. apply Hagain, NewInstance_deterministic.
  - intros w r w1. apply Hagain, NewAzureKeyVaultKey_deterministic.
Qed.

Lemma handlers_are_deterministic_witness :
  same_outcome
    (aws.NewInstance sample.ebsVolumeCostComponents sample.burstableInstance None)
    runtime.initial (with_warnings runtime.initial ["an earlier warning"])
  /\ same_outcome
       (azure.NewAzureKeyVaultKey (sample.hsmKeyIn sample.premiumVault)
          (Some sample.keysUsage))
       runtime.initial (with_warnings runtime.initial ["an earlier warning"]).
Proof.
  split.
  - exact (proj1 (proj1 (handlers_are_deterministic sample.ebsVolumeCostComponents
                           sample.burstableInstance None)
                    runtime.initial
                    (with_warnings runtime.initial ["an earlier warning"])
                    eq_refl)).
  - exact (proj2 (proj1 (handlers_are_deterministic sample.ebsVolumeCostComponents
                           (sample.hsmKeyIn sample.premiumVault)
                           (Some sample.keysUsage))
                    runtime.initial
                    (with_warnings runtime.initial ["an earlier warning"])
                    eq_refl)).
Defined.

(** C10. A key of an HSM type in a vault whose sku is not "Premium" gets
    exactly the four base components, whatever the usage data: no
    software-protected and no HSM-protected component. *)
Theorem hsm_key_outside_premium_has_base_components_only d u w kv rest :
  let location := gjson.String (schema.ResourceData.Get kv "location") in
  let skuName :=
    strings.Title (gjson.String (schema.ResourceData.Get kv "sku_name")) in
  schema.ResourceData.References d "key_vault_id" = kv :: rest ->
  location <> "" ->
  strings.HasSuffix (gjson.String (schema.ResourceData.Get d "key_type")) "HSM" = true ->
  skuName <> "Premium" ->
  azure.NewAzureKeyVaultKey d u w
  = runtime.Returns
      (Some {| schema.Resource.Name := schema.ResourceData.Address d;
               schema.Resource.SubResources := [];
               schema.Resource.CostComponents :=
                 [ vaultKeysRow "Secrets operations" location "10K transactions"
                     skuName "Operations" "0"
                     (blockQuantity
                        (azure.usageQuantity u "monthly_secrets_operations") 10000);
                   vaultKeysRow "Certificate operations" location "renewals"
                     skuName "Certificate Renewal Request" "0"
                     (blockQuantity
                        (azure.usageQuantity u "monthly_certificate_renewal_requests") 1);
                   vaultKeysRow "Certificate operations" location "10K transactions"
                     skuName "Operations" "0"
                     (blockQuantity
                        (azure.usageQuantity u "monthly_certificate_other_operations") 10000);
                   vaultKeysRow "Storage key rotation" location "renewals"
                     skuName "Secret Renewal" "0"
                     (blockQuantity
                        (azure.usageQuantity u "monthly_key_rotation_renewals") 1) ] |})
      w.
Proof.
  intros location skuName Hrefs Hloc Hhsm Hsku.
  rewrite (NewAzureKeyVaultKey_rows d u w kv rest Hrefs Hloc).
  unfold keyVaultKeyRows, softwareRows. fold location skuName.
  rewrite Hhsm. cbn [negb andb].
  rewrite (bool_decide_eq_false_2 _ Hsku). reflexivity.
Qed.

Lemma hsm_key_outside_premium_has_base_components_only_witness :
  (schema.CostComponent.Name <$>
     from_option schema.Resource.CostComponents []
       (match azure.NewAzureKeyVaultKey (sample.hsmKeyIn sample.standardVault)
                (Some sample.keysUsage) runtime.initial with
        | runtime.Returns r _ => r
        | runtime.Panics _ => None
        end))
  = ["Secrets operations"; "Certificate operations"; "Certificate operations";
     "Storage key rotation"].
Proof.
  rewrite (hsm_key_outside_premium_has_base_components_only
             (sample.hsmKeyIn sample.standardVault) (Some sample.keysUsage)
             runtime.initial sample.standardVault []).
  - reflexivity.
  - reflexivity.
  - vm_compute. discriminate.
  - reflexivity.
  - vm_compute. discriminate.
Defined.

(** C6. For a key of an HSM type in a Premium vault with
    [hsm_protected_keys] usage, other than an RSA-HSM key of size 2048, the
    components priced per month are the tier rows: the first bucket always,
    even at zero, then each later bucket only when it is greater than zero,
    with the start-usage amounts "0", "250", "1500", "4000" in ascending
    order. *)
Theorem hsm_keys_are_priced_in_tiers d u w kv rest :
  let location := gjson.String (schema.ResourceData.Get kv "location") in
  let skuName :=
    strings.Title (gjson.String (schema.ResourceData.Get kv "sku_name")) in
  let keyType := gjson.String (schema.ResourceData.Get d "key_type") in
  schema.ResourceData.References d "key_vault_id" = kv :: rest ->
  location <> "" ->
  strings.HasSuffix keyType "HSM" = true ->
  skuName = "Premium" ->
  gjson.Exists (schema.UsageData.Get u "hsm_protected_keys") = true ->
  ~ (keyType = "RSA-HSM" /\ keySizeOf d = "2048") ->
  exists r q0 q1 q2 q3,
    azure.NewAzureKeyVaultKey d (Some u) w = runtime.Returns (Some r) w
    /\ usage.CalculateTierBuckets
         (decimal.NewFromInt
            (gjson.Int (schema.UsageData.Get u "hsm_protected_keys")))
         [250; 1250; 2500]
       = [q0; q1; q2; q3]
    /\ filter (fun c => schema.CostComponent.Unit c = "months")
         (schema.Resource.CostComponents r)
       = vaultKeysRow "HSM-protected keys (first 250)" location "months" skuName
           "Premium HSM-protected Advanced Key" "0" (blockQuantity (Some q0) 1)
         :: (if decimal.GreaterThan q1 decimal.Zero
             then [vaultKeysRow "HSM-protected keys (next 1250)" location "months"
                     skuName "Premium HSM-protected Advanced Key" "250"
                     (blockQuantity (Some q1) 1)]
             else [])
         ++ (if decimal.GreaterThan q2 decimal.Zero
             then [vaultKeysRow "HSM-protected keys (next 2500)" location "months"
                     skuName "Premium HSM-protected Advanced Key" "1500"
                     (blockQuantity (Some q2) 1)]
             else [])
         ++ (if decimal.GreaterThan q3 decimal.Zero
             then [vaultKeysRow "HSM-protected keys (over 4000)" location "months"
                     skuName "Premium HSM-protected Advanced Key" "4000"
                     (blockQuantity (Some q3) 1)]
             else []).
Proof.
  intros location skuName keyType Hrefs Hloc Hhsm Hsku Hkeys Hspecial.
  destruct (key_tier_buckets
              (decimal.NewFromInt
                 (gjson.Int (schema.UsageData.Get u "hsm_protected_keys"))))
    as (q0 & q1 & q2 & q3 & Hbuckets).
  assert (Hnot : bool_decide (keyType = "RSA-HSM")
                 && bool_decide (keySizeOf d = "2048") = false).
  { apply andb_false_iff.
    destruct (decide (keyType = "RSA-HSM")) as [Ht|Ht];
      [right | left]; apply bool_decide_eq_false_2; tauto. }
  eexists _, q0, q1, q2, q3.
  split; [exact (NewAzureKeyVaultKey_rows d (Some u) w kv rest Hrefs Hloc)|].
  split; [exact Hbuckets|].
  cbn [schema.Resource.CostComponents].
  unfold keyVaultKeyRows, softwareRows, hsmKeyRows, hsmOperationRows.
  fold location skuName keyType.
  rewrite Hhsm. cbn [negb andb]. rewrite (bool_decide_eq_true_2 _ Hsku).
  rewrite (usageQuantity_present u "hsm_protected_keys" Hkeys), Hnot, Hbuckets.
  unfold tierRows, baseRows.
  destruct (decimal.GreaterThan q1 decimal.Zero),
           (decimal.GreaterThan q2 decimal.Zero),
           (decimal.GreaterThan q3 decimal.Zero),
           (azure.usageQuantity (Some u) "monthly_protected_keys_operations");
    reflexivity.
Qed.

Lemma hsm_keys_are_priced_in_tiers_witness :
  exists r q0 q1 q2 q3,
    azure.NewAzureKeyVaultKey (sample.hsmKeyIn sample.premiumVault)
      (Some sample.keysUsage) runtime.initial
    = runtime.Returns (Some r) runtime.initial
    /\ usage.CalculateTierBuckets
         (decimal.NewFromInt
            (gjson.Int (schema.UsageData.Get sample.keysUsage "hsm_protected_keys")))
         [250; 1250; 2500]
       = [q0; q1; q2; q3]
    /\ startUsageOf
         <$> filter (fun c => schema.CostComponent.Unit c = "months")
               (schema.Resource.CostComponents r)
       = ["0"; "250"; "1500"].
Proof.
  destruct (hsm_keys_are_priced_in_tiers (sample.hsmKeyIn sample.premiumVault)
              sample.keysUsage runtime.initial sample.premiumVault [])
    as (r & q0 & q1 & q2 & q3 & Hrun & Hbuckets & Hrows).
  - reflexivity.
  - vm_compute. discriminate.
  - reflexivity.
  - reflexivity.
  - reflexivity.
  - vm_compute. intros [H _]. discriminate H.
  - exists r, q0, q1, q2, q3. split; [exact Hrun|]. split; [exact Hbuckets|].
    rewrite Hrows. vm_compute in Hbuckets.
    injection Hbuckets as <- <- <- <-. reflexivity.
Defined.

Section block_quantities.

Import schema runtime.

Lemma blockSize_cases unit : blockSize unit = 1 \/ blockSize unit = 10000.
Proof. unfold blockSize. case_decide; eauto. Qed.

Lemma toQ_NewFromInt n : (decimal.toQ (decimal.NewFromInt n) == inject_Z n)%Q.
Proof. unfold decimal.toQ. cbn. ring. Qed.

(** An integer quantity divided by a block size of 1 or 10000 is the exact
    quotient: the sixteen decimal places of [Div] hold it without
    rounding. *)
Lemma blockQuantity_exact q multi :
  0 <= decimal.exp q -> multi = 1 \/ multi = 10000 ->
  exists x, blockQuantity (Some q) multi = Some x
            /\ (decimal.toQ x == decimal.toQ q / inject_Z multi)%Q.
Proof.
  intros Hq [-> | ->]; unfold blockQuantity.
  - change 1 with (10 ^ 0). rewrite Div_pow10 by lia.
    eexists. split; [reflexivity|]. apply toQ_Div_pow10; lia.
  - change 10000 with (10 ^ 4). rewrite Div_pow10 by lia.
    eexists. split; [reflexivity|]. apply toQ_Div_pow10; lia.
Qed.

Lemma row_exactOrNil name location unit skuName meterName startUsage quantity multi :
  multi = blockSize unit ->
  (forall q, quantity = Some q -> 0 <= decimal.exp q) ->
  exactOrNil (vaultKeysRow name location unit skuName meterName startUsage
                (blockQuantity quantity multi)).
Proof.
  intros -> Hint. unfold exactOrNil.
  cbn [vaultKeysRow CostComponent.MonthlyQuantity CostComponent.Unit].
  destruct quantity as [q|]; [|done].
  destruct (blockQuantity_exact q (blockSize unit) (Hint q eq_refl)
              (blockSize_cases unit)) as (x & -> & Hx).
  eauto.
Qed.

Lemma keyVaultKeyRows_exactOrNil location skuName keyType keySize u :
  Forall exactOrNil (keyVaultKeyRows location skuName keyType keySize u).
Proof.
  pose proof (usageQuantity_integer u) as Husage.
  unfold keyVaultKeyRows. repeat apply Forall_app_2.
  - unfold baseRows.
    repeat apply List.Forall_cons; try apply List.Forall_nil;
      (apply row_exactOrNil; [reflexivity | by apply Husage]).
  - unfold softwareRows. destruct (negb _); [|apply List.Forall_nil].
    apply List.Forall_cons; [|apply List.Forall_nil].
    apply row_exactOrNil; [reflexivity | by apply Husage].
  - destruct (_ && _); [|apply List.Forall_nil]. apply Forall_app_2.
    + unfold hsmKeyRows.
      destruct (azure.usageQuantity u "hsm_protected_keys") as [protectedKeys|] eqn:Hkeys.
      * apply Husage in Hkeys. destruct (_ && _).
        -- apply List.Forall_cons; [|apply List.Forall_nil].
           apply row_exactOrNil; [reflexivity | by intros ? [= <-]].
        -- pose proof (CalculateTierBuckets_integer protectedKeys
                         [250; 1250; 2500] Hkeys) as Hint.
           destruct (key_tier_buckets protectedKeys)
             as (q0 & q1 & q2 & q3 & Hbuckets).
           rewrite Hbuckets in Hint |- *.
           apply Forall_cons in Hint as [H0 Hint].
           apply Forall_cons in Hint as [H1 Hint].
           apply Forall_cons in Hint as [H2 Hint].
           apply Forall_cons in Hint as [H3 _].
           unfold tierRows.
           destruct (decimal.GreaterThan q1 decimal.Zero),
                    (decimal.GreaterThan q2 decimal.Zero),
                    (decimal.GreaterThan q3 decimal.Zero);
             cbn [app];
             repeat apply List.Forall_cons; try apply List.Forall_nil;
             (apply row_exactOrNil; [reflexivity | by intros ? [= <-]]).
      * apply List.Forall_cons; [|apply List.Forall_nil]. done.
    + unfold hsmOperationRows.
      destruct (azure.usageQuantity u "monthly_protected_keys_operations")
        as [t|] eqn:Hops; [|apply List.Forall_nil].
      apply Husage in Hops.
      apply List.Forall_cons; [|apply List.Forall_nil].
      apply row_exactOrNil; [reflexivity | by intros ? [= <-]].
Qed.

End block_quantities.

(** C7. A component built by [vaultKeysCostComponent] from a nil quantity
    has a nil monthly quantity, not zero; built from an integer quantity
    with the block size 1 or 10000 it has that quantity divided exactly.
    In the handler the block size goes with the unit (10000 for "10K
    transactions", 1 otherwise) in every component, and the "Secrets
    operations" component has a nil quantity when the usage has no
    [monthly_secrets_operations] and the exact quotient by 10000
    otherwise. *)
Theorem vault_key_quantity_is_nil_or_exact :
  (forall name location unit skuName meterName startUsage multi w,
     exists c,
       azure.vaultKeysCostComponent name location unit skuName meterName
         startUsage None multi w
       = runtime.Returns c w
       /\ schema.CostComponent.MonthlyQuantity c = None)
  /\ (forall name location unit skuName meterName startUsage q multi w,
        0 <= decimal.exp q -> multi = 1 \/ multi = 10000 ->
        exists c x,
          azure.vaultKeysCostComponent name location unit skuName meterName
            startUsage (Some q) multi w
          = runtime.Returns c w
          /\ schema.CostComponent.MonthlyQuantity c = Some x
          /\ (decimal.toQ x == decimal.toQ q / inject_Z multi)%Q)
  /\ (forall d u w kv rest,
        schema.ResourceData.References d "key_vault_id" = kv :: rest ->
        gjson.String (schema.ResourceData.Get kv "location") <> "" ->
        exists r c0,
          azure.NewAzureKeyVaultKey d u w = runtime.Returns (Some r) w
          /\ Forall exactOrNil (schema.Resource.CostComponents r)
          /\ schema.Resource.CostComponents r !! 0%nat = Some c0
          /\ schema.CostComponent.Name c0 = "Secrets operations"
          /\ schema.CostComponent.Unit c0 = "10K transactions"
          /\ match u with
             | Some u' =>
                 if gjson.Exists (schema.UsageData.Get u' "monthly_secrets_operations")
                 then exists x,
                        schema.CostComponent.MonthlyQuantity c0 = Some x
                        /\ (decimal.toQ x
                            == inject_Z
                                 (gjson.Int
                                    (schema.UsageData.Get u' "monthly_secrets_operations"))
                               / inject_Z 10000)%Q
                 else schema.CostComponent.MonthlyQuantity c0 = None
             | None => schema.CostComponent.MonthlyQuantity c0 = None
             end).
Proof.
  split; [|split].
  - intros. eexists. split; [reflexivity|]. reflexivity.
  - intros name location unit skuName meterName startUsage q multi w Hq Hmulti.
    destruct (blockQuantity_exact q multi Hq Hmulti) as (x & Hx & Hexact).
    exists (vaultKeysRow name location unit skuName meterName startUsage (Some x)), x.
    split; [|split; [reflexivity | exact Hexact]].
    rewrite vaultKeysCostComponent_ret by (destruct Hmulti; lia).
    by rewrite Hx.
  - intros d u w kv rest Hrefs Hloc.
    eexists _, _.
    split; [exact (NewAzureKeyVaultKey_rows d u w kv rest Hrefs Hloc)|].
    cbn [schema.Resource.CostComponents].
    split; [apply keyVaultKeyRows_exactOrNil|].
    split; [reflexivity|]. split; [reflexivity|]. split; [reflexivity|].
    cbn [vaultKeysRow schema.CostComponent.MonthlyQuantity].
    destruct u as [u'|]; [|reflexivity].
    unfold azure.usageQuantity.
    destruct (gjson.Exists _); [|reflexivity].
    destruct (blockQuantity_exact
                (decimal.NewFromInt
                   (gjson.Int (schema.UsageData.Get u' "monthly_secrets_operations")))
                10000) as (x & Hx & Hexact); [done | by right |].
    exists x. split; [exact Hx|].
    by rewrite Hexact, toQ_NewFromInt.
Qed.

Lemma vault_key_quantity_is_nil_or_exact_witness :
  exists c x,
    azure.vaultKeysCostComponent "Secrets operations" "westeurope"
      "10K transactions" "Premium" "Operations" "0"
      (Some (decimal.NewFromInt 25000)) 10000 runtime.initial
    = runtime.Returns c runtime.initial
    /\ schema.CostComponent.MonthlyQuantity c = Some x
    /\ (decimal.toQ x == decimal.toQ (decimal.NewFromInt 25000) / inject_Z 10000)%Q.
Proof.
  apply (proj1 (proj2 vault_key_quantity_is_nil_or_exact)).
  - vm_compute. discriminate.
  - right. reflexivity.
Defined.

(** ** Further properties of the [aws_instance] handler *)

Section instance_properties.

Import schema runtime.

Variable ebsVolumeCostComponents :
  string -> string -> option decimal.Decimal -> decimal.Decimal ->
  decimal.Decimal -> option decimal.Decimal -> list CostComponent.t.





End instance_properties.



Section instance_type_family.

Lemma before_first_split (sep : ascii) (s : string) :
  s = strings.before_first sep s
  \/ exists rest, s = strings.before_first sep s +:+ String sep rest.
Proof.
  induction s as [|c s IH]; [by left|]. simpl.
  destruct (Ascii.eqb_spec c sep) as [->|Hne].
  - right. by exists s.
  - destruct IH as [IH | [rest IH]].
    + left. by f_equal.
    + right. exists rest. by rewrite IH at 1.
Qed.

Lemma before_first_has_no_sep (sep : ascii) (s a b : string) :
  strings.before_first sep s <> a +:+ String sep b.
Proof.
  revert a. induction s as [|c s IH]; intros a; simpl.
  - destruct a; discriminate.
  - destruct (Ascii.eqb_spec c sep) as [->|Hne]; [destruct a; discriminate|].
    destruct a as [|c' a].
    + change ("" +:+ String sep b) with (String sep b). congruence.
    + change (String c' a +:+ String sep b) with (String c' (a +:+ String sep b)).
      intros [= -> H]. by apply (IH a).
Qed.

Lemma is_Some_unless {A} (P : Prop) `{Decision P} (x : A) :
  is_Some (if decide P then None else Some x) <-> ~ P.
Proof. case_decide; split; intros H'; [by destruct H' | done | done | eauto]. Qed.

End instance_type_family.

(** X2. [cpuCreditsCostComponent] returns a component exactly when the
    credit specification says "unlimited", or says nothing and the type is
    burstable; an explicit value such as "standard" turns it off even for a
    burstable type. The component filters on the usage type
    [/CPUCredits:<family>$/], where the family is the instance type up to
    its first dot. *)
Theorem cpu_credits_component_characterised d :
  let cpuCredits :=
    gjson.String (schema.ResourceData.Get d "credit_specification.0.cpu_credits") in
  let instanceType := gjson.String (schema.ResourceData.Get d "instance_type") in
  let burstable :=
    strings.HasPrefix instanceType "t3." || strings.HasPrefix instanceType "t4g." in
  (is_Some (aws.cpuCreditsCostComponent d)
   <-> cpuCredits = "unlimited" \/ (cpuCredits = "" /\ burstable = true))
  /\ forall c,
       aws.cpuCreditsCostComponent d = Some c ->
       exists pf family,
         schema.CostComponent.ProductFilter c = Some pf
         /\ schema.ProductFilter.AttributeFilters pf !! 1%nat
            = Some (schema.AttributeFilter.New "usagetype" None
                      (Some ("/CPUCredits:" +:+ family +:+ "$/")))
         /\ (instanceType = family
             \/ exists rest, instanceType = family +:+ "." +:+ rest)
         /\ (forall a b, family <> a +:+ "." +:+ b)
         /\ schema.CostComponent.HourlyQuantity c = None
         /\ schema.CostComponent.MonthlyQuantity c = None.
Proof.
  intros cpuCredits instanceType burstable.
  unfold aws.cpuCreditsCostComponent. cbv zeta.
  fold cpuCredits instanceType. fold burstable.
  clearbody cpuCredits instanceType burstable.
  split.
  - rewrite is_Some_unless.
    destruct (decide (cpuCredits = "unlimited")),
             (bool_decide_reflect (cpuCredits = "")), burstable; cbn [andb];
      intuition congruence.
  - intros c. case_decide; [done|]. intros [= <-].
    eexists _, (strings.before_first "." instanceType).
    split; [reflexivity|]. split; [reflexivity|].
    split; [apply before_first_split|].
    split; [apply before_first_has_no_sep|]. done.
Qed.

Lemma cpu_credits_component_characterised_witness :
  exists c pf family,
    aws.cpuCreditsCostComponent sample.burstableInstance = Some c
    /\ schema.CostComponent.ProductFilter c = Some pf
    /\ schema.ProductFilter.AttributeFilters pf !! 1%nat
       = Some (schema.AttributeFilter.New "usagetype" None
                 (Some ("/CPUCredits:" +:+ family +:+ "$/")))
    /\ (forall a b, family <> a +:+ "." +:+ b).
Proof.
  destruct (cpu_credits_component_characterised sample.burstableInstance)
    as [Hsome Hfilter].
  destruct (proj2 Hsome) as [c Hc].
  - right. split; reflexivity.
  - destruct (Hfilter c Hc) as (pf & family & Hpf & Hattribute & _ & Hdot & _).
    by exists c, pf, family.
Defined.

(** X3. A [reserved_instance_type] that is present but empty leaves the
    component on the on-demand path: the price filter has the purchase
    option and no term field, although the name already reads
    "reserved". *)
Theorem empty_reserved_type_keeps_on_demand_price d u purchaseOption tenancy w :
  gjson.Exists (schema.UsageData.Get u "reserved_instance_type") = true ->
  gjson.String (schema.UsageData.Get u "reserved_instance_type") = "" ->
  exists cc w' osLabel pf,
    aws.computeCostComponent d (Some u) purchaseOption tenancy w
    = runtime.Returns cc w'
    /\ schema.CostComponent.Name cc
       = "Instance usage (" +:+ osLabel +:+ ", " +:+ "reserved" +:+ ", "
           +:+ gjson.String (schema.ResourceData.Get d "instance_type") +:+ ")"
    /\ schema.CostComponent.PriceFilter cc = Some pf
    /\ schema.PriceFilter.PurchaseOption pf = Some purchaseOption
    /\ schema.PriceFilter.TermOfferingClass pf = None
    /\ schema.PriceFilter.TermLength pf = None
    /\ schema.PriceFilter.TermPurchaseOption pf = None.
Proof.
  intros Htype Hempty.
  destruct (operatingSystemOf_total (Some u) w)
    as ([osLabel operatingSystem] & msgs & Hos).
  unfold aws.computeCostComponent. cbv zeta. unfold runtime.bind at 1.
  rewrite Hos, Htype, Hempty. cbv beta iota zeta.
  destruct (decide _) as [|_]; [done|].
  eexists _, _, osLabel, _. split; [reflexivity|]. done.
Qed.

Lemma empty_reserved_type_keeps_on_demand_price_witness :
  exists cc w' osLabel pf,
    aws.computeCostComponent sample.plainInstance
      (Some (schema.UsageData.New "aws_instance.plain"
               (list_to_map [("reserved_instance_type", Some (gjson.VString ""))])))
      "on_demand" "Shared" runtime.initial
    = runtime.Returns cc w'
    /\ schema.CostComponent.Name cc
       = "Instance usage (" +:+ osLabel +:+ ", " +:+ "reserved" +:+ ", "
           +:+ "m5.large" +:+ ")"
    /\ schema.CostComponent.PriceFilter cc = Some pf
    /\ schema.PriceFilter.PurchaseOption pf = Some "on_demand"
    /\ schema.PriceFilter.TermOfferingClass pf = None
    /\ schema.PriceFilter.TermLength pf = None
    /\ schema.PriceFilter.TermPurchaseOption pf = None.
Proof.
  apply (empty_reserved_type_keeps_on_demand_price sample.plainInstance
           (schema.UsageData.New "aws_instance.plain"
              (list_to_map [("reserved_instance_type", Some (gjson.VString ""))]))
           "on_demand" "Shared" runtime.initial); reflexivity.
Defined.

Section compute_component.

Import schema runtime.

(** The operating-system block, with what it writes. *)
Lemma operatingSystemOf_result u w :
  exists osLabel operatingSystem msgs,
    aws.operatingSystemOf u w
    = Returns (osLabel, operatingSystem) (with_warnings w msgs)
    /\ (osLabel, operatingSystem)
       ∈ [("Linux/UNIX", "Linux"); ("Windows", "Windows"); ("RHEL", "RHEL");
          ("SUSE", "SUSE")]
    /\ (length msgs <= 1)%nat
    /\ (msgs = []
        <-> match u with
            | None => True
            | Some u' =>
                gjson.Exists (UsageData.Get u' "operating_system") = false
                \/ strings.ToLower
                     (gjson.String (UsageData.Get u' "operating_system"))
                   ∈ ["windows"; "rhel"; "suse"; "linux"]
            end).
Proof.
  unfold aws.operatingSystemOf. cbv zeta.
  destruct u as [u'|].
  - destruct (gjson.Exists (UsageData.Get u' "operating_system")).
    + set (os := strings.ToLower _).
      repeat case_decide;
        first
          [ eexists _, _, [_]; split; [reflexivity|]; split; [set_solver|];
            split; [cbn; lia|]; split; [done|];
            intros [? | Hin]; [done|];
            repeat (apply elem_of_cons in Hin as [? | Hin]; [done|]);
            by apply elem_of_nil in Hin
          | eexists _, _, []; rewrite with_warnings_nil;
            split; [reflexivity|]; split; [set_solver|];
            split; [cbn; lia|]; split; [|done];
            intros _; right; set_solver ].
    + eexists _, _, []. rewrite with_warnings_nil.
      split; [reflexivity|]. split; [set_solver|]. split; [cbn; lia|]. by split; [left|].
  - eexists _, _, []. rewrite with_warnings_nil.
    split; [reflexivity|]. split; [set_solver|]. split; [cbn; lia|]. done.
Qed.

(** What [computeCostComponent] returns, whatever the usage data: only the
    price filter and the labels in the name depend on the path taken. *)
Lemma computeCostComponent_result d u purchaseOption tenancy w :
  exists osLabel operatingSystem label pf msgs,
    aws.computeCostComponent d u purchaseOption tenancy w
    = Returns
        {| CostComponent.Name :=
             "Instance usage (" +:+ osLabel +:+ ", " +:+ label +:+ ", "
               +:+ gjson.String (ResourceData.Get d "instance_type") +:+ ")";
           CostComponent.Unit := "hours";
           CostComponent.UnitMultiplier := 1;
           CostComponent.IgnoreIfMissingPrice := false;
           CostComponent.HourlyQuantity := Some (decimal.NewFromInt 1);
           CostComponent.MonthlyQuantity := None;
           CostComponent.ProductFilter := Some
             {| ProductFilter.VendorName := Some "aws";
                ProductFilter.Region :=
                  Some (gjson.String (ResourceData.Get d "region"));
                ProductFilter.Service := Some "AmazonEC2";
                ProductFilter.ProductFamily := Some "Compute Instance";
                ProductFilter.AttributeFilters :=
                  [ AttributeFilter.New "instanceType"
                      (Some (gjson.String (ResourceData.Get d "instance_type"))) None;
                    AttributeFilter.New "tenancy" (Some tenancy) None;
                    AttributeFilter.New "operatingSystem" (Some operatingSystem) None;
                    AttributeFilter.New "preInstalledSw" (Some "NA") None;
                    AttributeFilter.New "capacitystatus" (Some "Used") None ] |};
           CostComponent.PriceFilter := Some pf |}
        (with_warnings w msgs)
    /\ aws.operatingSystemOf u w
       = Returns (osLabel, operatingSystem) (with_warnings w msgs).
Proof.
  destruct (operatingSystemOf_result u w)
    as (osLabel & operatingSystem & msgs & Hos & _).
  unfold aws.computeCostComponent. cbv zeta. unfold bind at 1. rewrite Hos.
  cbv beta iota zeta.
  destruct u as [u'|];
    [destruct (gjson.Exists (UsageData.Get u' "reserved_instance_type"))|];
    cbv beta iota zeta; case_decide;
    eexists osLabel, operatingSystem, _, _, msgs; (split; reflexivity).
Qed.

End compute_component.

(** X4. [computeCostComponent] never panics and always returns a
    component filtered on one of the operating systems Linux, Windows, RHEL
    and SUSE; it writes at most one warning, and none exactly when the
    usage names no operating system or names, in any letter case, one of
    windows, rhel, suse and linux. *)
Theorem operating_system_warning_only_when_unrecognised
    d u purchaseOption tenancy w :
  exists cc msgs pf operatingSystem,
    aws.computeCostComponent d u purchaseOption tenancy w
    = runtime.Returns cc (with_warnings w msgs)
    /\ schema.CostComponent.ProductFilter cc = Some pf
    /\ schema.ProductFilter.AttributeFilters pf !! 2%nat
       = Some (schema.AttributeFilter.New "operatingSystem" (Some operatingSystem) None)
    /\ operatingSystem ∈ ["Linux"; "Windows"; "RHEL"; "SUSE"]
    /\ (length msgs <= 1)%nat
    /\ (msgs = []
        <-> match u with
            | None => True
            | Some u' =>
                gjson.Exists (schema.UsageData.Get u' "operating_system") = false
                \/ strings.ToLower
                     (gjson.String (schema.UsageData.Get u' "operating_system"))
                   ∈ ["windows"; "rhel"; "suse"; "linux"]
            end).
Proof.
  destruct (computeCostComponent_result d u purchaseOption tenancy w)
    as (osLabel & operatingSystem & label & pf & msgs & Hrun & Hos).
  destruct (operatingSystemOf_result u w)
    as (osLabel' & operatingSystem' & msgs' & Hos' & Hin & Hlen & Hmsgs).
  rewrite Hos in Hos'. injection Hos' as <- <- Hw.
  apply app_inv_head in Hw. subst msgs'.
  eexists _, msgs, _, operatingSystem. split; [exact Hrun|].
  split; [reflexivity|]. split; [reflexivity|].
  split; [|done].
  rewrite !elem_of_cons, elem_of_nil in Hin. rewrite !elem_of_cons.
  destruct Hin as [[= -> ->]|[[= -> ->]|[[= -> ->]|[[= -> ->]|[]]]]]; auto 10.
Qed.

Lemma operating_system_warning_only_when_unrecognised_witness :
  exists cc msgs,
    aws.computeCostComponent sample.plainInstance (Some sample.solarisUsage)
      "on_demand" "Shared" runtime.initial
    = runtime.Returns cc (with_warnings runtime.initial msgs)
    /\ (length msgs <= 1)%nat
    /\ msgs <> [].
Proof.
  destruct (operating_system_warning_only_when_unrecognised sample.plainInstance
              (Some sample.solarisUsage) "on_demand" "Shared" runtime.initial)
    as (cc & msgs & pf & operatingSystem & Hrun & _ & _ & _ & Hlength & Hnone).
  exists cc, msgs. split; [exact Hrun|]. split; [exact Hlength|].
  intros Hnil. apply Hnone in Hnil as [Hmissing | Hknown].
  - discriminate Hmissing.
  - rewrite !elem_of_cons, elem_of_nil in Hknown.
    destruct Hknown as [H|[H|[H|[H|[]]]]]; vm_compute in H; discriminate H.
Defined.

(** X5. A purchase option other than "on_demand" and "spot" has no label:
    without a reserved instance type in the usage, the name of the
    component has an empty label between the commas, and the price filter
    carries the purchase option as it was given. *)
Theorem unknown_purchase_option_has_empty_label d u purchaseOption tenancy w :
  purchaseOption <> "on_demand" -> purchaseOption <> "spot" ->
  match u with
  | Some u' => gjson.Exists (schema.UsageData.Get u' "reserved_instance_type") = false
  | None => True
  end ->
  exists cc w' osLabel pf,
    aws.computeCostComponent d u purchaseOption tenancy w = runtime.Returns cc w'
    /\ schema.CostComponent.Name cc
       = "Instance usage (" +:+ osLabel +:+ ", " +:+ "" +:+ ", "
           +:+ gjson.String (schema.ResourceData.Get d "instance_type") +:+ ")"
    /\ schema.CostComponent.PriceFilter cc = Some pf
    /\ schema.PriceFilter.PurchaseOption pf = Some purchaseOption.
Proof.
  intros Hdemand Hspot Hreserved.
  destruct (operatingSystemOf_total u w)
    as ([osLabel operatingSystem] & msgs & Hos).
  unfold aws.computeCostComponent. cbv zeta. unfold runtime.bind at 1.
  rewrite Hos. cbv beta iota zeta.
  rewrite lookup_insert_ne by done. rewrite lookup_singleton_ne by done.
  destruct u as [u'|]; [rewrite Hreserved|]; cbv beta iota zeta;
    (destruct (decide _) as [|_]; [done|]);
    eexists _, _, osLabel, _; (split; [reflexivity|]); done.
Qed.

Lemma unknown_purchase_option_has_empty_label_witness :
  exists cc w' osLabel pf,
    aws.computeCostComponent sample.plainInstance None "dedicated_host" "Shared"
      runtime.initial
    = runtime.Returns cc w'
    /\ schema.CostComponent.Name cc
       = "Instance usage (" +:+ osLabel +:+ ", " +:+ "" +:+ ", "
           +:+ "m5.large" +:+ ")"
    /\ schema.CostComponent.PriceFilter cc = Some pf
    /\ schema.PriceFilter.PurchaseOption pf = Some "dedicated_host".
Proof.
  apply (unknown_purchase_option_has_empty_label sample.plainInstance None
           "dedicated_host" "Shared" runtime.initial).
  - discriminate.
  - discriminate.
  - exact I.
Defined.

(** X6. On the reserved path the term and the payment option are
    translated by name: "1_year" and "3_year" give "1yr" and "3yr",
    "no_upfront", "partial_upfront" and "all_upfront" give their catalogue
    names; any other value, and a missing one, gives a filter that is set
    to the empty string rather than left nil. *)
Theorem reserved_term_and_payment_option_names d u purchaseOption tenancy w :
  gjson.Exists (schema.UsageData.Get u "reserved_instance_type") = true ->
  gjson.String (schema.UsageData.Get u "reserved_instance_type") <> "" ->
  let term :=
    if gjson.Exists (schema.UsageData.Get u "reserved_instance_term")
    then gjson.String (schema.UsageData.Get u "reserved_instance_term") else "" in
  let payment :=
    if gjson.Exists (schema.UsageData.Get u "reserved_instance_payment_option")
    then gjson.String (schema.UsageData.Get u "reserved_instance_payment_option")
    else "" in
  exists cc w' pf,
    aws.computeCostComponent d (Some u) purchaseOption tenancy w
    = runtime.Returns cc w'
    /\ schema.CostComponent.PriceFilter cc = Some pf
    /\ schema.PriceFilter.TermLength pf
       = Some (if decide (term = "1_year") then "1yr"
               else if decide (term = "3_year") then "3yr" else "")
    /\ schema.PriceFilter.TermPurchaseOption pf
       = Some (if decide (payment = "no_upfront") then "No Upfront"
               else if decide (payment = "partial_upfront") then "Partial Upfront"
               else if decide (payment = "all_upfront") then "All Upfront" else "")
    /\ schema.PriceFilter.StartUsageAmount pf = Some "0"
    /\ schema.PriceFilter.PurchaseOption pf = None.
Proof.
  intros Htype Hnonempty term payment.
  destruct (operatingSystemOf_total (Some u) w)
    as ([osLabel operatingSystem] & msgs & Hos).
  unfold aws.computeCostComponent. cbv zeta. unfold runtime.bind at 1.
  rewrite Hos, Htype. cbv beta iota zeta. fold term payment.
  clearbody term payment.
  destruct (decide _) as [_|]; [|done].
  eexists _, _, _. split; [reflexivity|].
  unfold aws.reservedInstanceCostComponent. cbv zeta.
  cbn [schema.CostComponent.PriceFilter]. split; [reflexivity|].
  cbn [schema.PriceFilter.TermLength schema.PriceFilter.TermPurchaseOption
       schema.PriceFilter.StartUsageAmount schema.PriceFilter.PurchaseOption].
  split; [|split; [|done]].
  - f_equal. repeat case_decide; subst;
      rewrite ?lookup_insert_eq, ?lookup_insert_ne, ?lookup_singleton_eq,
        ?lookup_singleton_ne by done; try reflexivity.
    all: rewrite ?lookup_insert_eq; reflexivity.
  - f_equal. repeat case_decide; subst;
      rewrite ?lookup_insert_eq, ?lookup_insert_ne, ?lookup_singleton_eq,
        ?lookup_singleton_ne by done; try reflexivity.
    all: rewrite ?lookup_insert_eq; reflexivity.
Qed.

Lemma reserved_term_and_payment_option_names_witness :
  exists cc w' pf,
    aws.computeCostComponent sample.plainInstance
      (Some (schema.UsageData.New "aws_instance.plain"
               (list_to_map
                  [ ("reserved_instance_type", Some (gjson.VString "convertible"));
                    ("reserved_instance_term", Some (gjson.VString "5_year")) ])))
      "on_demand" "Shared" runtime.initial
    = runtime.Returns cc w'
    /\ schema.CostComponent.PriceFilter cc = Some pf
    /\ schema.PriceFilter.TermLength pf = Some ""
    /\ schema.PriceFilter.TermPurchaseOption pf = Some ""
    /\ schema.PriceFilter.StartUsageAmount pf = Some "0"
    /\ schema.PriceFilter.PurchaseOption pf = None.
Proof.
  destruct (reserved_term_and_payment_option_names sample.plainInstance
              (schema.UsageData.New "aws_instance.plain"
                 (list_to_map
                    [ ("reserved_instance_type", Some (gjson.VString "convertible"));
                      ("reserved_instance_term", Some (gjson.VString "5_year")) ]))
              "on_demand" "Shared" runtime.initial)
    as (cc & w' & pf & Hrun & Hpf & Hterm & Hpayment & Hstart & Hoption).
  - reflexivity.
  - vm_compute. discriminate.
  - vm_compute in Hterm, Hpayment. by exists cc, w', pf.
Defined.

Section instance_result.

Import schema runtime.

Variable ebs :
  string -> string -> option decimal.Decimal -> decimal.Decimal ->
  decimal.Decimal -> option decimal.Decimal -> list CostComponent.t.



End instance_result.



Section instance_filters.

Import schema runtime.


End instance_filters.





(** X10. The instance handler reads two things of the usage data first:
    [operating_system] and [reserved_instance_type]. Usage data that has
    neither gives the same result, and the same warnings, as no usage data
    at all: a reserved term or payment option without a reserved type is
    ignored. *)
Theorem usage_without_system_and_reserved_type_is_ignored ebs d u w :
  gjson.Exists (schema.UsageData.Get u "operating_system") = false ->
  gjson.Exists (schema.UsageData.Get u "reserved_instance_type") = false ->
  aws.NewInstance ebs d (Some u) w = aws.NewInstance ebs d None w.
Proof.
  intros Hos Hreserved.
  assert (Hcompute :
            forall purchaseOption tenancy,
              aws.computeCostComponent d (Some u) purchaseOption tenancy
              = aws.computeCostComponent d None purchaseOption tenancy).
  { intros purchaseOption tenancy.
    unfold aws.computeCostComponent, aws.operatingSystemOf.
    by rewrite Hos, Hreserved. }
  unfold aws.NewInstance. by rewrite Hcompute.
Qed.

Lemma usage_without_system_and_reserved_type_is_ignored_witness :
  aws.NewInstance sample.ebsVolumeCostComponents sample.plainInstance
    (Some sample.termOnlyUsage) runtime.initial
  = aws.NewInstance sample.ebsVolumeCostComponents sample.plainInstance None
      runtime.initial.
Proof.
  apply (usage_without_system_and_reserved_type_is_ignored
           sample.ebsVolumeCostComponents sample.plainInstance
           sample.termOnlyUsage runtime.initial).
  - reflexivity.
  - reflexivity.
Defined.

(** X11. Whatever the usage data and the purchase option,
    [computeCostComponent] prices one instance per hour: the unit is
    "hours", the hourly quantity is 1, there is no monthly quantity, and
    the product is looked up in the family "Compute Instance" by the
    instance type, the tenancy it was given, the operating system, no
    pre-installed software and used capacity. The on-demand and the
    reserved component differ in the price filter and the labels only. *)
Theorem instance_usage_is_one_instance_per_hour d u purchaseOption tenancy w :
  exists cc w' osLabel operatingSystem label,
    aws.computeCostComponent d u purchaseOption tenancy w = runtime.Returns cc w'
    /\ schema.CostComponent.Unit cc = "hours"
    /\ schema.CostComponent.HourlyQuantity cc = Some (decimal.NewFromInt 1)
    /\ schema.CostComponent.MonthlyQuantity cc = None
    /\ schema.CostComponent.IgnoreIfMissingPrice cc = false
    /\ schema.CostComponent.ProductFilter cc
       = Some
           {| schema.ProductFilter.VendorName := Some "aws";
              schema.ProductFilter.Region :=
                Some (gjson.String (schema.ResourceData.Get d "region"));
              schema.ProductFilter.Service := Some "AmazonEC2";
              schema.ProductFilter.ProductFamily := Some "Compute Instance";
              schema.ProductFilter.AttributeFilters :=
                [ schema.AttributeFilter.New "instanceType"
                    (Some (gjson.String (schema.ResourceData.Get d "instance_type")))
                    None;
                  schema.AttributeFilter.New "tenancy" (Some tenancy) None;
                  schema.AttributeFilter.New "operatingSystem"
                    (Some operatingSystem) None;
                  schema.AttributeFilter.New "preInstalledSw" (Some "NA") None;
                  schema.AttributeFilter.New "capacitystatus" (Some "Used") None ] |}
    /\ is_Some (schema.CostComponent.PriceFilter cc)
    /\ schema.CostComponent.Name cc
       = "Instance usage (" +:+ osLabel +:+ ", " +:+ label +:+ ", "
           +:+ gjson.String (schema.ResourceData.Get d "instance_type") +:+ ")".
Proof.
  destruct (computeCostComponent_result d u purchaseOption tenancy w)
    as (osLabel & operatingSystem & label & pf & msgs & Hrun & _).
  eexists _, _, osLabel, operatingSystem, label. split; [exact Hrun|].
  cbn [schema.CostComponent.Unit schema.CostComponent.HourlyQuantity
         schema.CostComponent.MonthlyQuantity
         schema.CostComponent.IgnoreIfMissingPrice
         schema.CostComponent.ProductFilter schema.CostComponent.PriceFilter
         schema.CostComponent.Name].
  do 5 (split; [reflexivity|]). split; [by eexists | reflexivity].
Qed.

Lemma instance_usage_is_one_instance_per_hour_witness :
  exists cc w',
    aws.computeCostComponent sample.plainInstance (Some sample.reservedUsage)
      "on_demand" "Shared" runtime.initial
    = runtime.Returns cc w'
    /\ schema.CostComponent.Unit cc = "hours"
    /\ schema.CostComponent.HourlyQuantity cc = Some (decimal.NewFromInt 1)
    /\ schema.CostComponent.MonthlyQuantity cc = None.
Proof.
  destruct (instance_usage_is_one_instance_per_hour sample.plainInstance
              (Some sample.reservedUsage) "on_demand" "Shared" runtime.initial)
    as (cc & w' & osLabel & operatingSystem & label
        & Hrun & Hunit & Hhourly & Hmonthly & _).
  by exists cc, w'.
Defined.

(** ** Further properties of the [azurerm_key_vault_key] handler *)

Section key_vault_properties.

Import schema runtime.

(** A key type that ends in "HSM" is not "RSA", so the test
    [keyType == "RSA" && keySize == "2048"] fails inside the HSM block. *)
Lemma hsm_key_type_is_not_RSA keyType keySize :
  strings.HasSuffix keyType "HSM" = true ->
  bool_decide (keyType = "RSA") && bool_decide (keySize = "2048") = false.
Proof.
  intros Hhsm. apply andb_false_iff. left. apply bool_decide_eq_false_2.
  intros ->. vm_compute in Hhsm. discriminate.
Qed.

Lemma to_upper_P c :
  strings.to_upper c = "P"%char -> c = "p"%char \/ c = "P"%char.
Proof.
  destruct c as [[] [] [] [] [] [] [] []]; vm_compute; intros H;
    first [discriminate H | by left | by right].
Qed.

Ltac title_step H :=
  lazymatch type of H with
  | strings.title_from ?prev ?s = _ =>
      destruct s as [|? s]; [discriminate H|];
      cbn [strings.title_from] in H;
      change (strings.isSeparator prev) with false in H;
      injection H as -> H
  end.

(** [strings.Title] gives "Premium" for the two spellings "premium" and
    "Premium" only. *)
Lemma Title_Premium s :
  strings.Title s = "Premium" <-> s = "premium" \/ s = "Premium".
Proof.
  split; [|by intros [-> | ->]].
  unfold strings.Title. intros H.
  destruct s as [|c s]; [discriminate H|].
  cbn [strings.title_from] in H.
  change (strings.isSeparator " ") with true in H.
  injection H as Hc H.
  apply to_upper_P in Hc as [-> | ->]; [left | right];
    do 6 title_step H; destruct s; by try discriminate H.
Qed.

(** Every row of a key is a [vaultKeysRow] for the location and the sku of
    the vault, in one of three units. *)
Lemma keyVaultKeyRows_rows location skuName keyType keySize u :
  Forall
    (fun c =>
       exists name unit meterName startUsage quantity,
         c = vaultKeysRow name location unit skuName meterName startUsage quantity
         /\ unit ∈ ["10K transactions"; "renewals"; "months"])
    (keyVaultKeyRows location skuName keyType keySize u).
Proof.
  assert (Hrow : forall name unit meterName startUsage quantity,
             unit ∈ ["10K transactions"; "renewals"; "months"] ->
             exists name' unit' meterName' startUsage' quantity',
               vaultKeysRow name location unit skuName meterName startUsage quantity
               = vaultKeysRow name' location unit' skuName meterName' startUsage'
                   quantity'
               /\ unit' ∈ ["10K transactions"; "renewals"; "months"]).
  { intros. by eexists _, _, _, _, _. }
  assert (H10K : "10K transactions" ∈ ["10K transactions"; "renewals"; "months"])
    by (rewrite !elem_of_cons; auto).
  assert (Hrenewals : "renewals" ∈ ["10K transactions"; "renewals"; "months"])
    by (rewrite !elem_of_cons; auto).
  assert (Hmonths : "months" ∈ ["10K transactions"; "renewals"; "months"])
    by (rewrite !elem_of_cons; auto).
  unfold keyVaultKeyRows. repeat apply Forall_app_2.
  - unfold baseRows.
    repeat apply List.Forall_cons; try apply List.Forall_nil; by apply Hrow.
  - unfold softwareRows. destruct (negb _); [|apply List.Forall_nil].
    apply List.Forall_cons; [|apply List.Forall_nil]. by apply Hrow.
  - destruct (_ && _); [|apply List.Forall_nil]. apply Forall_app_2.
    + unfold hsmKeyRows.
      destruct (azure.usageQuantity u "hsm_protected_keys") as [protectedKeys|].
      * destruct (_ && _).
        -- apply List.Forall_cons; [|apply List.Forall_nil]. by apply Hrow.
        -- destruct (key_tier_buckets protectedKeys)
             as (q0 & q1 & q2 & q3 & ->).
           unfold tierRows.
           destruct (decimal.GreaterThan q1 decimal.Zero),
                    (decimal.GreaterThan q2 decimal.Zero),
                    (decimal.GreaterThan q3 decimal.Zero);
             cbn [app];
             repeat apply List.Forall_cons; try apply List.Forall_nil;
             by apply Hrow.
      * apply List.Forall_cons; [|apply List.Forall_nil]. by apply Hrow.
    + unfold hsmOperationRows.
      destruct (azure.usageQuantity u "monthly_protected_keys_operations");
        [|apply List.Forall_nil].
      apply List.Forall_cons; [|apply List.Forall_nil]. by apply Hrow.
Qed.

(** The rows of the HSM block: between one and four for the keys, at most
    one for the operations. *)
Lemma hsmKeyRows_length location skuName keyType keySize u :
  (1 <= length (hsmKeyRows location skuName keyType keySize u) <= 4)%nat.
Proof.
  unfold hsmKeyRows.
  destruct (azure.usageQuantity u "hsm_protected_keys") as [protectedKeys|];
    [|cbn; lia].
  destruct (_ && _); [cbn; lia|].
  destruct (key_tier_buckets protectedKeys) as (q0 & q1 & q2 & q3 & ->).
  unfold tierRows.
  destruct (decimal.GreaterThan q1 decimal.Zero),
           (decimal.GreaterThan q2 decimal.Zero),
           (decimal.GreaterThan q3 decimal.Zero); cbn; lia.
Qed.

Lemma hsmOperationRows_length location skuName keyType keySize u :
  (length (hsmOperationRows location skuName keyType keySize u) <= 1)%nat.
Proof.
  unfold hsmOperationRows.
  destruct (azure.usageQuantity u "monthly_protected_keys_operations"); cbn; lia.
Qed.

(** A quantity of the usage data divided by a block size of the handler
    is there exactly when the usage data has the key. *)
Lemma blockQuantity_usage_is_Some u key multi :
  multi <> 0 ->
  is_Some (blockQuantity (azure.usageQuantity u key) multi)
  <-> exists u', u = Some u' /\ gjson.Exists (UsageData.Get u' key) = true.
Proof.
  intros Hmulti. unfold azure.usageQuantity.
  destruct u as [u'|]; [|split; [by intros [? ?] | by intros (? & ? & ?)]].
  destruct (gjson.Exists (UsageData.Get u' key)) eqn:Hkey.
  - split; [by eauto|]. intros _. by apply Div_is_Some.
  - split; [by intros [? ?]|]. intros (? & [= <-] & ?). congruence.
Qed.

End key_vault_properties.

Section key_vault_names.

Import schema runtime.

Lemma NewAzureKeyVaultKey_skipped d u w kv rest :
  ResourceData.References d "key_vault_id" = kv :: rest ->
  gjson.String (ResourceData.Get kv "location") = "" ->
  azure.NewAzureKeyVaultKey d u w
  = Returns None
      (with_warnings w
         ["Skipping resource " +:+ ResourceData.Address d
            +:+ ". Infracost currently cannot find the location for this resource."]).
Proof.
  intros Hrefs Hloc.
  unfold azure.NewAzureKeyVaultKey. cbv zeta. rewrite Hrefs. run_step.
  destruct (decide _) as [_|]; [reflexivity | done].
Qed.

Lemma hsmRows_names location skuName keyType keySize u :
  Forall (fun c => strings.HasPrefix (CostComponent.Name c) "HSM-protected keys" = true)
    (hsmKeyRows location skuName keyType keySize u
       ++ hsmOperationRows location skuName keyType keySize u).
Proof.
  apply Forall_app_2.
  - unfold hsmKeyRows.
    destruct (azure.usageQuantity u "hsm_protected_keys") as [protectedKeys|].
    + destruct (_ && _).
      * by apply List.Forall_cons; [|apply List.Forall_nil].
      * destruct (key_tier_buckets protectedKeys) as (q0 & q1 & q2 & q3 & ->).
        unfold tierRows.
        destruct (decimal.GreaterThan q1 decimal.Zero),
                 (decimal.GreaterThan q2 decimal.Zero),
                 (decimal.GreaterThan q3 decimal.Zero);
          cbn [app];
          repeat apply List.Forall_cons; try apply List.Forall_nil; reflexivity.
    + by apply List.Forall_cons; [|apply List.Forall_nil].
  - unfold hsmOperationRows.
    destruct (azure.usageQuantity u "monthly_protected_keys_operations");
      [|apply List.Forall_nil].
    by apply List.Forall_cons; [|apply List.Forall_nil].
Qed.

End key_vault_names.

(** X12. For a key whose vault is resolved and has a location, the
    handler returns a resource named by the address of the key, without
    sub-resources and without writing a warning. It has between four and
    nine cost components, and the first four are always the secrets
    operations, the certificate renewals, the other certificate operations
    and the storage key rotations, each with a quantity exactly when the
    usage data has the key of that row. *)
Theorem key_components_start_with_the_base_rows d u w kv rest :
  let location := gjson.String (schema.ResourceData.Get kv "location") in
  let skuName :=
    strings.Title (gjson.String (schema.ResourceData.Get kv "sku_name")) in
  schema.ResourceData.References d "key_vault_id" = kv :: rest ->
  location <> "" ->
  exists r secrets renewals operations rotations,
    azure.NewAzureKeyVaultKey d u w = runtime.Returns (Some r) w
    /\ schema.Resource.Name r = schema.ResourceData.Address d
    /\ schema.Resource.SubResources r = []
    /\ (4 <= length (schema.Resource.CostComponents r) <= 9)%nat
    /\ take 4 (schema.Resource.CostComponents r)
       = [ vaultKeysRow "Secrets operations" location "10K transactions"
             skuName "Operations" "0" secrets;
           vaultKeysRow "Certificate operations" location "renewals"
             skuName "Certificate Renewal Request" "0" renewals;
           vaultKeysRow "Certificate operations" location "10K transactions"
             skuName "Operations" "0" operations;
           vaultKeysRow "Storage key rotation" location "renewals"
             skuName "Secret Renewal" "0" rotations ]
    /\ Forall2
         (fun key quantity =>
            is_Some quantity
            <-> exists u', u = Some u'
                           /\ gjson.Exists (schema.UsageData.Get u' key) = true)
         [ "monthly_secrets_operations"; "monthly_certificate_renewal_requests";
           "monthly_certificate_other_operations"; "monthly_key_rotation_renewals" ]
         [ secrets; renewals; operations; rotations ].
Proof.
  intros location skuName Hrefs Hloc.
  eexists _, _, _, _, _.
  split; [exact (NewAzureKeyVaultKey_rows d u w kv rest Hrefs Hloc)|].
  cbn [schema.Resource.Name schema.Resource.SubResources
         schema.Resource.CostComponents].
  split; [reflexivity|]. split; [reflexivity|].
  fold location skuName.
  split; [|split; [reflexivity|]].
  - unfold keyVaultKeyRows. rewrite !length_app.
    change (length (baseRows _ _ _)) with 4%nat.
    set (keyType := gjson.String (schema.ResourceData.Get d "key_type")).
    pose proof (hsmKeyRows_length location skuName keyType (keySizeOf d) u).
    pose proof (hsmOperationRows_length location skuName keyType (keySizeOf d) u).
    unfold softwareRows.
    destruct (strings.HasSuffix keyType "HSM"); cbn [negb andb length];
      [destruct (bool_decide _); rewrite ?length_app; cbn [length]|]; lia.
  - repeat apply Forall2_cons_2; try apply Forall2_nil_2;
      by apply blockQuantity_usage_is_Some.
Qed.

Lemma key_components_start_with_the_base_rows_witness :
  exists r secrets renewals operations rotations,
    azure.NewAzureKeyVaultKey (sample.hsmKeyIn sample.premiumVault)
      (Some sample.keysUsage) runtime.initial
    = runtime.Returns (Some r) runtime.initial
    /\ (4 <= length (schema.Resource.CostComponents r) <= 9)%nat
    /\ take 4 (schema.Resource.CostComponents r)
       = [ vaultKeysRow "Secrets operations" "westeurope" "10K transactions"
             "Premium" "Operations" "0" secrets;
           vaultKeysRow "Certificate operations" "westeurope" "renewals"
             "Premium" "Certificate Renewal Request" "0" renewals;
           vaultKeysRow "Certificate operations" "westeurope" "10K transactions"
             "Premium" "Operations" "0" operations;
           vaultKeysRow "Storage key rotation" "westeurope" "renewals"
             "Premium" "Secret Renewal" "0" rotations ].
Proof.
  destruct (key_components_start_with_the_base_rows
              (sample.hsmKeyIn sample.premiumVault) (Some sample.keysUsage)
              runtime.initial sample.premiumVault [])
    as (r & secrets & renewals & operations & rotations
        & Hrun & _ & _ & Hlength & Hrows & _).
  - reflexivity.
  - vm_compute. discriminate.
  - exists r, secrets, renewals, operations, rotations.
    split; [exact Hrun|]. split; [exact Hlength|]. exact Hrows.
Defined.

(** X13. Every cost component of a key is looked up in the same place:
    vendor "azure", the location of the vault as region, service "Key
    Vault", product family "Security", product name "Key Vault", the
    title-cased sku of the vault and a meter name, with the purchase
    option "Consumption" and a start-usage amount. None has an hourly
    quantity or may be dropped for a missing price, and the unit is one of
    "10K transactions", "renewals" and "months". *)
Theorem key_components_share_vendor_region_and_sku d u w kv rest :
  let location := gjson.String (schema.ResourceData.Get kv "location") in
  let skuName :=
    strings.Title (gjson.String (schema.ResourceData.Get kv "sku_name")) in
  schema.ResourceData.References d "key_vault_id" = kv :: rest ->
  location <> "" ->
  exists r,
    azure.NewAzureKeyVaultKey d u w = runtime.Returns (Some r) w
    /\ Forall
         (fun c =>
            (exists meterName,
               schema.CostComponent.ProductFilter c
               = Some
                   {| schema.ProductFilter.VendorName := Some "azure";
                      schema.ProductFilter.Region := Some location;
                      schema.ProductFilter.Service := Some "Key Vault";
                      schema.ProductFilter.ProductFamily := Some "Security";
                      schema.ProductFilter.AttributeFilters :=
                        [ schema.AttributeFilter.New "productName"
                            (Some "Key Vault") None;
                          schema.AttributeFilter.New "skuName" (Some skuName) None;
                          schema.AttributeFilter.New "meterName" (Some meterName)
                            None ] |})
            /\ (exists startUsage,
                  schema.CostComponent.PriceFilter c
                  = Some
                      {| schema.PriceFilter.PurchaseOption := Some "Consumption";
                         schema.PriceFilter.StartUsageAmount := Some startUsage;
                         schema.PriceFilter.TermOfferingClass := None;
                         schema.PriceFilter.TermLength := None;
                         schema.PriceFilter.TermPurchaseOption := None |})
            /\ schema.CostComponent.HourlyQuantity c = None
            /\ schema.CostComponent.UnitMultiplier c = 1
            /\ schema.CostComponent.IgnoreIfMissingPrice c = false
            /\ schema.CostComponent.Unit c
               ∈ ["10K transactions"; "renewals"; "months"])
         (schema.Resource.CostComponents r).
Proof.
  intros location skuName Hrefs Hloc.
  eexists. split; [exact (NewAzureKeyVaultKey_rows d u w kv rest Hrefs Hloc)|].
  cbn [schema.Resource.CostComponents]. fold location skuName.
  eapply Forall_impl; [apply keyVaultKeyRows_rows|].
  intros c (name & unit & meterName & startUsage & quantity & -> & Hunit).
  split; [by exists meterName|]. split; [by exists startUsage|]. by repeat split.
Qed.

Lemma key_components_share_vendor_region_and_sku_witness :
  exists r,
    azure.NewAzureKeyVaultKey (sample.hsmKeyIn sample.premiumVault)
      (Some sample.keysUsage) runtime.initial
    = runtime.Returns (Some r) runtime.initial
    /\ Forall
         (fun c =>
            schema.CostComponent.HourlyQuantity c = None
            /\ schema.CostComponent.Unit c
               ∈ ["10K transactions"; "renewals"; "months"])
         (schema.Resource.CostComponents r).
Proof.
  destruct (key_components_share_vendor_region_and_sku
              (sample.hsmKeyIn sample.premiumVault) (Some sample.keysUsage)
              runtime.initial sample.premiumVault [])
    as (r & Hrun & Hrows).
  - reflexivity.
  - vm_compute. discriminate.
  - exists r. split; [exact Hrun|].
    eapply Forall_impl; [exact Hrows|].
    intros c (_ & _ & Hhourly & _ & _ & Hunit). by split.
Defined.

(** X14. A key whose type does not end in "HSM" has exactly five cost
    components, whatever the sku of the vault: the four base rows and one
    "Software-protected keys" row per 10K transactions, on the meter
    "Operations" for an RSA key of size 2048 and on "Advanced Key
    Operations" for every other key. *)
Theorem software_protected_key_has_five_components d u w kv rest :
  let location := gjson.String (schema.ResourceData.Get kv "location") in
  let skuName :=
    strings.Title (gjson.String (schema.ResourceData.Get kv "sku_name")) in
  let keyType := gjson.String (schema.ResourceData.Get d "key_type") in
  schema.ResourceData.References d "key_vault_id" = kv :: rest ->
  location <> "" ->
  strings.HasSuffix keyType "HSM" = false ->
  exists r base,
    azure.NewAzureKeyVaultKey d u w = runtime.Returns (Some r) w
    /\ schema.CostComponent.Name <$> base
       = ["Secrets operations"; "Certificate operations"; "Certificate operations";
          "Storage key rotation"]
    /\ schema.Resource.CostComponents r
       = base
         ++ [ vaultKeysRow "Software-protected keys" location "10K transactions"
                skuName
                (if bool_decide (keyType = "RSA" /\ keySizeOf d = "2048")
                 then "Operations" else "Advanced Key Operations")
                "0"
                (blockQuantity
                   (azure.usageQuantity u "monthly_protected_keys_operations")
                   10000) ].
Proof.
  intros location skuName keyType Hrefs Hloc Hsoftware.
  eexists _, (baseRows location skuName u).
  split; [exact (NewAzureKeyVaultKey_rows d u w kv rest Hrefs Hloc)|].
  split; [reflexivity|].
  cbn [schema.Resource.CostComponents].
  unfold keyVaultKeyRows, softwareRows. fold location skuName keyType.
  rewrite Hsoftware. cbn [negb andb]. rewrite app_nil_r.
  by rewrite bool_decide_and.
Qed.

Lemma software_protected_key_has_five_components_witness :
  exists r base,
    azure.NewAzureKeyVaultKey
      (sample.rsaKeyIn sample.standardVault)
      None runtime.initial
    = runtime.Returns (Some r) runtime.initial
    /\ length base = 4%nat
    /\ schema.Resource.CostComponents r
       = base
         ++ [ vaultKeysRow "Software-protected keys" "westeurope"
                "10K transactions" "Standard" "Operations" "0" None ].
Proof.
  destruct (software_protected_key_has_five_components
              (sample.rsaKeyIn sample.standardVault)
              None runtime.initial sample.standardVault [])
    as (r & base & Hrun & Hnames & Hrows).
  - reflexivity.
  - vm_compute. discriminate.
  - reflexivity.
  - exists r, base. split; [exact Hrun|].
    split; [by rewrite <- (length_fmap schema.CostComponent.Name), Hnames|].
    exact Hrows.
Defined.

(** X15. For a key of an HSM type in a Premium vault, usage data without
    [hsm_protected_keys] (or no usage data) still gives one
    "HSM-protected keys" component per month, with a nil quantity. Its
    meter name is "Secret Renewal": the variable [meterName] still holds
    the value set for the storage key rotation row. *)
Theorem hsm_key_without_usage_is_priced_as_secret_renewal d u w kv rest :
  let location := gjson.String (schema.ResourceData.Get kv "location") in
  let skuName :=
    strings.Title (gjson.String (schema.ResourceData.Get kv "sku_name")) in
  schema.ResourceData.References d "key_vault_id" = kv :: rest ->
  location <> "" ->
  strings.HasSuffix (gjson.String (schema.ResourceData.Get d "key_type")) "HSM"
  = true ->
  skuName = "Premium" ->
  (forall u', u = Some u' ->
              gjson.Exists (schema.UsageData.Get u' "hsm_protected_keys") = false) ->
  exists r,
    azure.NewAzureKeyVaultKey d u w = runtime.Returns (Some r) w
    /\ schema.Resource.CostComponents r !! 4%nat
       = Some (vaultKeysRow "HSM-protected keys" location "months" skuName
                 "Secret Renewal" "0" None)
    /\ filter (fun c => schema.CostComponent.Unit c = "months")
         (schema.Resource.CostComponents r)
       = [ vaultKeysRow "HSM-protected keys" location "months" skuName
             "Secret Renewal" "0" None ].
Proof.
  intros location skuName Hrefs Hloc Hhsm Hsku Hkeys.
  assert (Hnone : azure.usageQuantity u "hsm_protected_keys" = None).
  { destruct u as [u'|]; [|done]. by apply usageQuantity_absent, Hkeys. }
  eexists. split; [exact (NewAzureKeyVaultKey_rows d u w kv rest Hrefs Hloc)|].
  cbn [schema.Resource.CostComponents].
  unfold keyVaultKeyRows, softwareRows, hsmKeyRows, hsmOperationRows, baseRows.
  fold location skuName. rewrite Hhsm. cbn [negb andb].
  rewrite (bool_decide_eq_true_2 _ Hsku), Hnone.
  split; [reflexivity|].
  destruct (azure.usageQuantity u "monthly_protected_keys_operations");
    reflexivity.
Qed.

Lemma hsm_key_without_usage_is_priced_as_secret_renewal_witness :
  exists r,
    azure.NewAzureKeyVaultKey (sample.hsmKeyIn sample.premiumVault) None
      runtime.initial
    = runtime.Returns (Some r) runtime.initial
    /\ schema.Resource.CostComponents r !! 4%nat
       = Some (vaultKeysRow "HSM-protected keys" "westeurope" "months" "Premium"
                 "Secret Renewal" "0" None).
Proof.
  destruct (hsm_key_without_usage_is_priced_as_secret_renewal
              (sample.hsmKeyIn sample.premiumVault) None runtime.initial
              sample.premiumVault [])
    as (r & Hrun & Hrow & _).
  - reflexivity.
  - vm_compute. discriminate.
  - reflexivity.
  - reflexivity.
  - discriminate.
  - exists r. split; [exact Hrun|]. exact Hrow.
Defined.

(** X16. An RSA-HSM key of size 2048 in a Premium vault is not priced in
    tiers: with [hsm_protected_keys] in the usage data there is one
    component per month, on the meter "Premium HSM-protected RSA 2048-bit
    key" from the start-usage amount "0", and its quantity is the number
    of keys, however large. *)
Theorem rsa_hsm_2048_key_is_not_tiered d u w kv rest :
  let location := gjson.String (schema.ResourceData.Get kv "location") in
  let skuName :=
    strings.Title (gjson.String (schema.ResourceData.Get kv "sku_name")) in
  schema.ResourceData.References d "key_vault_id" = kv :: rest ->
  location <> "" ->
  gjson.String (schema.ResourceData.Get d "key_type") = "RSA-HSM" ->
  keySizeOf d = "2048" ->
  skuName = "Premium" ->
  gjson.Exists (schema.UsageData.Get u "hsm_protected_keys") = true ->
  exists r x,
    azure.NewAzureKeyVaultKey d (Some u) w = runtime.Returns (Some r) w
    /\ filter (fun c => schema.CostComponent.Unit c = "months")
         (schema.Resource.CostComponents r)
       = [ vaultKeysRow "HSM-protected keys" location "months" skuName
             "Premium HSM-protected RSA 2048-bit key" "0" (Some x) ]
    /\ (decimal.toQ x
        == inject_Z (gjson.Int (schema.UsageData.Get u "hsm_protected_keys")))%Q.
Proof.
  intros location skuName Hrefs Hloc Htype Hsize Hsku Hkeys.
  destruct (blockQuantity_exact
              (decimal.NewFromInt
                 (gjson.Int (schema.UsageData.Get u "hsm_protected_keys")))
              1) as (x & Hx & Hexact); [done | by left |].
  eexists _, x.
  split; [exact (NewAzureKeyVaultKey_rows d (Some u) w kv rest Hrefs Hloc)|].
  split.
  - cbn [schema.Resource.CostComponents].
    unfold keyVaultKeyRows, softwareRows, hsmKeyRows, hsmOperationRows, baseRows.
    fold location skuName. rewrite Htype, Hsize.
    rewrite (bool_decide_eq_true_2 _ Hsku).
    rewrite (usageQuantity_present u "hsm_protected_keys" Hkeys), Hx.
    destruct (azure.usageQuantity (Some u) "monthly_protected_keys_operations");
      reflexivity.
  - rewrite Hexact, toQ_NewFromInt. change (inject_Z 1) with 1%Q. field.
Qed.

Lemma rsa_hsm_2048_key_is_not_tiered_witness :
  exists r x,
    azure.NewAzureKeyVaultKey (sample.rsaHsmKeyIn sample.premiumVault)
      (Some sample.keysUsage) runtime.initial
    = runtime.Returns (Some r) runtime.initial
    /\ filter (fun c => schema.CostComponent.Unit c = "months")
         (schema.Resource.CostComponents r)
       = [ vaultKeysRow "HSM-protected keys" "westeurope" "months" "Premium"
             "Premium HSM-protected RSA 2048-bit key" "0" (Some x) ]
    /\ (decimal.toQ x == inject_Z 3000)%Q.
Proof.
  destruct (rsa_hsm_2048_key_is_not_tiered
              (sample.rsaHsmKeyIn sample.premiumVault) sample.keysUsage
              runtime.initial sample.premiumVault [])
    as (r & x & Hrun & Hrows & Hx).
  - reflexivity.
  - vm_compute. discriminate.
  - reflexivity.
  - reflexivity.
  - reflexivity.
  - reflexivity.
  - exists r, x. split; [exact Hrun|]. split; [exact Hrows|]. exact Hx.
Defined.

(** X17. In the HSM block the operations row is always on the meter
    "Advanced Key Operations": the test for an RSA key of size 2048 there
    cannot succeed, since a key type that ends in "HSM" is not "RSA". With
    [monthly_protected_keys_operations] in the usage data the row is the
    last component, per 10K transactions. *)
Theorem hsm_key_operations_use_the_advanced_meter d u w kv rest :
  let location := gjson.String (schema.ResourceData.Get kv "location") in
  let skuName :=
    strings.Title (gjson.String (schema.ResourceData.Get kv "sku_name")) in
  schema.ResourceData.References d "key_vault_id" = kv :: rest ->
  location <> "" ->
  strings.HasSuffix (gjson.String (schema.ResourceData.Get d "key_type")) "HSM"
  = true ->
  skuName = "Premium" ->
  gjson.Exists (schema.UsageData.Get u "monthly_protected_keys_operations") = true ->
  exists r,
    azure.NewAzureKeyVaultKey d (Some u) w = runtime.Returns (Some r) w
    /\ last (schema.Resource.CostComponents r)
       = Some (vaultKeysRow "HSM-protected keys" location "10K transactions"
                 skuName "Advanced Key Operations" "0"
                 (blockQuantity
                    (Some (decimal.NewFromInt
                             (gjson.Int
                                (schema.UsageData.Get u
                                   "monthly_protected_keys_operations"))))
                    10000))
    /\ Forall
         (fun c =>
            forall pf,
              schema.CostComponent.ProductFilter c = Some pf ->
              schema.CostComponent.Name c = "HSM-protected keys" ->
              schema.AttributeFilter.New "meterName" (Some "Operations") None
              ∉ schema.ProductFilter.AttributeFilters pf)
         (schema.Resource.CostComponents r).
Proof.
  intros location skuName Hrefs Hloc Hhsm Hsku Hops.
  eexists.
  split; [exact (NewAzureKeyVaultKey_rows d (Some u) w kv rest Hrefs Hloc)|].
  cbn [schema.Resource.CostComponents].
  unfold keyVaultKeyRows, softwareRows. fold location skuName.
  rewrite Hhsm. cbn [negb andb]. rewrite (bool_decide_eq_true_2 _ Hsku).
  rewrite app_nil_l. unfold hsmOperationRows.
  rewrite (usageQuantity_present u "monthly_protected_keys_operations" Hops).
  rewrite (hsm_key_type_is_not_RSA _ (keySizeOf d) Hhsm).
  split; [by rewrite app_assoc, last_snoc|].
  assert (Hmeter : forall name unit meterName startUsage quantity pf,
             meterName <> "Operations" ->
             schema.CostComponent.ProductFilter
               (vaultKeysRow name location unit skuName meterName startUsage quantity)
             = Some pf ->
             schema.AttributeFilter.New "meterName" (Some "Operations") None
             ∉ schema.ProductFilter.AttributeFilters pf).
  { intros name unit meterName startUsage quantity pf Hmeter [= <-].
    cbn [schema.ProductFilter.AttributeFilters].
    rewrite !elem_of_cons, elem_of_nil. intros [|[|[|]]]; congruence. }
  repeat apply Forall_app_2.
  - unfold baseRows.
    repeat apply List.Forall_cons; try apply List.Forall_nil;
      by intros pf _ Hname.
  - unfold hsmKeyRows.
    destruct (azure.usageQuantity (Some u) "hsm_protected_keys") as [protectedKeys|].
    + destruct (_ && _).
      * apply List.Forall_cons; [|apply List.Forall_nil].
        intros pf Hpf _. eapply Hmeter; [|exact Hpf]; done.
      * destruct (key_tier_buckets protectedKeys) as (q0 & q1 & q2 & q3 & ->).
        unfold tierRows.
        destruct (decimal.GreaterThan q1 decimal.Zero),
                 (decimal.GreaterThan q2 decimal.Zero),
                 (decimal.GreaterThan q3 decimal.Zero);
          cbn [app];
          repeat apply List.Forall_cons; try apply List.Forall_nil;
          by intros pf _ Hname.
    + apply List.Forall_cons; [|apply List.Forall_nil].
      intros pf Hpf _. eapply Hmeter; [|exact Hpf]; done.
  - apply List.Forall_cons; [|apply List.Forall_nil].
    intros pf Hpf _. eapply Hmeter; [|exact Hpf]; done.
Qed.

Lemma hsm_key_operations_use_the_advanced_meter_witness :
  exists r quantity,
    azure.NewAzureKeyVaultKey (sample.rsaHsmKeyIn sample.premiumVault)
      (Some sample.operationsUsage) runtime.initial
    = runtime.Returns (Some r) runtime.initial
    /\ last (schema.Resource.CostComponents r)
       = Some (vaultKeysRow "HSM-protected keys" "westeurope" "10K transactions"
                 "Premium" "Advanced Key Operations" "0" quantity).
Proof.
  destruct (hsm_key_operations_use_the_advanced_meter
              (sample.rsaHsmKeyIn sample.premiumVault) sample.operationsUsage
              runtime.initial sample.premiumVault [])
    as (r & Hrun & Hlast & _).
  - reflexivity.
  - vm_compute. discriminate.
  - reflexivity.
  - reflexivity.
  - reflexivity.
  - exists r. eexists. split; [exact Hrun|]. exact Hlast.
Defined.

Section key_vault_blocks.

Import schema runtime.

Lemma baseRows_not_hsm location skuName u c :
  c ∈ baseRows location skuName u ->
  strings.HasPrefix (CostComponent.Name c) "HSM-protected keys" = false
  /\ CostComponent.Name c <> "Software-protected keys".
Proof.
  unfold baseRows. rewrite !elem_of_cons, elem_of_nil.
  intros [->|[->|[->|[->|[]]]]]; (split; [reflexivity | discriminate]).
Qed.

Lemma hsmKeyRows_first location skuName keyType keySize u :
  exists c, c ∈ hsmKeyRows location skuName keyType keySize u.
Proof.
  pose proof (hsmKeyRows_length location skuName keyType keySize u) as Hlength.
  destruct (hsmKeyRows location skuName keyType keySize u) as [|c rows].
  - cbn in Hlength. lia.
  - exists c. apply elem_of_cons. by left.
Qed.

End key_vault_blocks.

(** X18. Which block of the handler prices a key is decided by the key
    type and the sku of the vault alone. A component whose name starts
    with "HSM-protected keys" is there exactly when the key type ends in
    "HSM" and the sku of the vault is spelled "premium" or "Premium"; a
    "Software-protected keys" component is there exactly when the key
    type does not end in "HSM". *)
Theorem hsm_components_exactly_for_premium_vaults d u w kv rest :
  let sku := gjson.String (schema.ResourceData.Get kv "sku_name") in
  let keyType := gjson.String (schema.ResourceData.Get d "key_type") in
  schema.ResourceData.References d "key_vault_id" = kv :: rest ->
  gjson.String (schema.ResourceData.Get kv "location") <> "" ->
  exists r,
    azure.NewAzureKeyVaultKey d u w = runtime.Returns (Some r) w
    /\ ((exists c, c ∈ schema.Resource.CostComponents r
                   /\ strings.HasPrefix (schema.CostComponent.Name c)
                        "HSM-protected keys" = true)
        <-> strings.HasSuffix keyType "HSM" = true
            /\ (sku = "premium" \/ sku = "Premium"))
    /\ ((exists c, c ∈ schema.Resource.CostComponents r
                   /\ schema.CostComponent.Name c = "Software-protected keys")
        <-> strings.HasSuffix keyType "HSM" = false).
Proof.
  intros sku keyType Hrefs Hloc.
  eexists. split; [exact (NewAzureKeyVaultKey_rows d u w kv rest Hrefs Hloc)|].
  cbn [schema.Resource.CostComponents].
  set (location := gjson.String (schema.ResourceData.Get kv "location")).
  fold sku keyType.
  pose proof (baseRows_not_hsm location (strings.Title sku) u) as Hbase.
  pose proof (proj1 (Forall_forall _ _)
                (hsmRows_names location (strings.Title sku) keyType (keySizeOf d) u))
    as Hhsm.
  destruct (hsmKeyRows_first location (strings.Title sku) keyType (keySizeOf d) u)
    as (first & Hfirst).
  pose proof (Title_Premium sku) as Htitle.
  unfold keyVaultKeyRows, softwareRows.
  destruct (strings.HasSuffix keyType "HSM"); cbn [negb andb].
  - destruct (decide (strings.Title sku = "Premium")) as [Hsku|Hsku].
    + rewrite (bool_decide_eq_true_2 _ Hsku). split.
      * split; [by intros _; split; [|apply Htitle]|]. intros _.
        exists first. rewrite !elem_of_app. split; [by right; right; left|].
        apply Hhsm. rewrite elem_of_app. by left.
      * split; [|done]. intros (c & Hin & Hname).
        apply elem_of_app in Hin as [Hin|Hin]; [by destruct (Hbase c Hin)|].
        cbn [app] in Hin. apply Hhsm in Hin. by rewrite Hname in Hin.
    + rewrite (bool_decide_eq_false_2 _ Hsku). split.
      * split; [|by intros [_ ?%Htitle]]. intros (c & Hin & Hname).
        rewrite !elem_of_app, elem_of_nil in Hin.
        destruct Hin as [Hin|[[]|[]]]. destruct (Hbase c Hin). congruence.
      * split; [|done]. intros (c & Hin & Hname).
        rewrite !elem_of_app, elem_of_nil in Hin.
        destruct Hin as [Hin|[[]|[]]]. by destruct (Hbase c Hin).
  - split.
    + split; [|by intros [? _]]. intros (c & Hin & Hname).
      rewrite !elem_of_app, elem_of_cons, !elem_of_nil in Hin.
      destruct Hin as [Hin|[[->|[]]|[]]]; [|done].
      destruct (Hbase c Hin). congruence.
    + split; [done|]. intros _. eexists.
      split; [apply elem_of_app; right; apply elem_of_app; left;
              apply elem_of_cons; left; reflexivity|].
      reflexivity.
Qed.

Lemma hsm_components_exactly_for_premium_vaults_witness :
  exists r,
    azure.NewAzureKeyVaultKey (sample.hsmKeyIn sample.premiumVault) None
      runtime.initial
    = runtime.Returns (Some r) runtime.initial
    /\ exists c, c ∈ schema.Resource.CostComponents r
                 /\ strings.HasPrefix (schema.CostComponent.Name c)
                      "HSM-protected keys" = true.
Proof.
  destruct (hsm_components_exactly_for_premium_vaults
              (sample.hsmKeyIn sample.premiumVault) None runtime.initial
              sample.premiumVault [])
    as (r & Hrun & Hhsm & _).
  - reflexivity.
  - vm_compute. discriminate.
  - exists r. split; [exact Hrun|]. apply Hhsm. split; [reflexivity|].
    left. reflexivity.
Defined.

(** X19. Of the resource data, the key vault handler uses the address,
    the key type and the key size of the key, and the location and the
    sku of the first vault the reference resolves to. Two keys that agree
    on these get the same outcome: further vaults behind the first one
    and every other attribute are ignored. *)
Theorem key_depends_on_the_first_vault_only d d' u w kv rest kv' rest' :
  schema.ResourceData.References d "key_vault_id" = kv :: rest ->
  schema.ResourceData.References d' "key_vault_id" = kv' :: rest' ->
  schema.ResourceData.Address d = schema.ResourceData.Address d' ->
  gjson.String (schema.ResourceData.Get d "key_type")
  = gjson.String (schema.ResourceData.Get d' "key_type") ->
  keySizeOf d = keySizeOf d' ->
  gjson.String (schema.ResourceData.Get kv "location")
  = gjson.String (schema.ResourceData.Get kv' "location") ->
  gjson.String (schema.ResourceData.Get kv "sku_name")
  = gjson.String (schema.ResourceData.Get kv' "sku_name") ->
  azure.NewAzureKeyVaultKey d u w = azure.NewAzureKeyVaultKey d' u w.
Proof.
  intros Hrefs Hrefs' Haddress Htype Hsize Hlocation Hsku.
  destruct (decide (gjson.String (schema.ResourceData.Get kv "location") = ""))
    as [Hloc|Hloc].
  - rewrite (NewAzureKeyVaultKey_skipped d u w kv rest Hrefs Hloc).
    rewrite (NewAzureKeyVaultKey_skipped d' u w kv' rest' Hrefs')
      by congruence.
    by rewrite Haddress.
  - rewrite (NewAzureKeyVaultKey_rows d u w kv rest Hrefs Hloc).
    rewrite (NewAzureKeyVaultKey_rows d' u w kv' rest' Hrefs') by congruence.
    by rewrite Haddress, Htype, Hsize, Hlocation, Hsku.
Qed.

Lemma key_depends_on_the_first_vault_only_witness :
  azure.NewAzureKeyVaultKey (sample.hsmKeyIn sample.premiumVault)
    (Some sample.keysUsage) runtime.initial
  = azure.NewAzureKeyVaultKey
      (sample.hsmKeyInTwoVaults sample.premiumVault sample.unlocatedVault)
      (Some sample.keysUsage) runtime.initial.
Proof.
  apply (key_depends_on_the_first_vault_only
           (sample.hsmKeyIn sample.premiumVault)
           (sample.hsmKeyInTwoVaults sample.premiumVault sample.unlocatedVault)
           (Some sample.keysUsage) runtime.initial
           sample.premiumVault [] sample.premiumVault [sample.unlocatedVault]);
    reflexivity.
Defined.

(** X20. A handler resolves no reference attribute other than the ones
    its registry item declares. For the registry items of [aws_instance]
    (which declares none) and of [azurerm_key_vault_key] (which declares
    [key_vault_id]), two resources with the same address and attribute
    values that resolve the declared attributes alike get the same
    outcome from [RFunc]. *)
Theorem handlers_read_declared_references_only ebs item d d' u w :
  item = aws.GetInstanceRegistryItem ebs
  \/ item = azure.GetAzureKeyVaultKeyRegistryItem ->
  schema.ResourceData.Address d = schema.ResourceData.Address d' ->
  schema.ResourceData.RawValues d = schema.ResourceData.RawValues d' ->
  Forall
    (fun attribute =>
       schema.ResourceData.References d attribute
       = schema.ResourceData.References d' attribute)
    (RegistryItem.ReferenceAttributes item) ->
  RegistryItem.RFunc item d u w = RegistryItem.RFunc item d' u w.
Proof.
  intros [-> | ->] Haddress Hvalues Hrefs;
    cbn [RegistryItem.RFunc RegistryItem.ReferenceAttributes
           aws.GetInstanceRegistryItem azure.GetAzureKeyVaultKeyRegistryItem]
      in Hrefs |- *.
  - unfold aws.NewInstance, aws.computeCostComponent,
      aws.ebsOptimizedCostComponent, aws.detailedMonitoringCostComponent,
      aws.cpuCreditsCostComponent, schema.ResourceData.Get.
    by rewrite Haddress, Hvalues.
  - apply Forall_cons in Hrefs as [Hvault _].
    unfold azure.NewAzureKeyVaultKey. rewrite Hvault.
    unfold schema.ResourceData.Get.
    by rewrite Haddress, Hvalues.
Qed.

Lemma handlers_read_declared_references_only_witness :
  azure.NewAzureKeyVaultKey (sample.hsmKeyIn sample.premiumVault)
    (Some sample.keysUsage) runtime.initial
  = azure.NewAzureKeyVaultKey
      (schema.ResourceData.New "azurerm_key_vault_key.hsm"
         (schema.ResourceData.RawValues (sample.hsmKeyIn sample.premiumVault))
         [ ("resource_group_name", [sample.standardVault]);
           ("key_vault_id", [sample.premiumVault]) ])
      (Some sample.keysUsage) runtime.initial.
Proof.
  apply (handlers_read_declared_references_only sample.ebsVolumeCostComponents
           azure.GetAzureKeyVaultKeyRegistryItem
           (sample.hsmKeyIn sample.premiumVault)
           (schema.ResourceData.New "azurerm_key_vault_key.hsm"
              (schema.ResourceData.RawValues (sample.hsmKeyIn sample.premiumVault))
              [ ("resource_group_name", [sample.standardVault]);
                ("key_vault_id", [sample.premiumVault]) ])
           (Some sample.keysUsage) runtime.initial).
  - right. reflexivity.
  - reflexivity.
  - reflexivity.
  - apply List.Forall_cons; [reflexivity | apply List.Forall_nil].
Defined.

(** X21. Of the usage data, the key vault handler reads six keys, each
    through its existence and its integer value. Two usage data (or usage
    data and none at all) that give the same quantity for these six keys
    get the same outcome: every other usage key is ignored. *)
Theorem key_reads_six_usage_keys d u u' w :
  Forall
    (fun key => azure.usageQuantity u key = azure.usageQuantity u' key)
    [ "monthly_secrets_operations"; "monthly_certificate_renewal_requests";
      "monthly_certificate_other_operations"; "monthly_key_rotation_renewals";
      "monthly_protected_keys_operations"; "hsm_protected_keys" ] ->
  azure.NewAzureKeyVaultKey d u w = azure.NewAzureKeyVaultKey d u' w.
Proof.
  intros Hkeys.
  apply Forall_cons in Hkeys as [Hsecrets Hkeys].
  apply Forall_cons in Hkeys as [Hrenewals Hkeys].
  apply Forall_cons in Hkeys as [Hoperations Hkeys].
  apply Forall_cons in Hkeys as [Hrotations Hkeys].
  apply Forall_cons in Hkeys as [Hprotected Hkeys].
  apply Forall_cons in Hkeys as [Hhsm _].
  unfold azure.NewAzureKeyVaultKey.
  by rewrite Hsecrets, Hrenewals, Hoperations, Hrotations, Hprotected, Hhsm.
Qed.

Lemma key_reads_six_usage_keys_witness :
  azure.NewAzureKeyVaultKey (sample.hsmKeyIn sample.premiumVault) None
    runtime.initial
  = azure.NewAzureKeyVaultKey (sample.hsmKeyIn sample.premiumVault)
      (Some sample.unrelatedUsage) runtime.initial.
Proof.
  apply (key_reads_six_usage_keys (sample.hsmKeyIn sample.premiumVault) None
           (Some sample.unrelatedUsage) runtime.initial).
  repeat apply List.Forall_cons; try apply List.Forall_nil; reflexivity.
Defined.

(** X22. [vaultKeysCostComponent] panics in one case only: a quantity is
    given and the block size is 0, where the division panics with "decimal
    division by 0". In every other case it returns without touching the
    state, and the component has a monthly quantity exactly when a
    quantity was given. *)
Theorem vault_key_component_panics_exactly_on_zero_block
    name location unit skuName meterName startUsage quantity multi w :
  match azure.vaultKeysCostComponent name location unit skuName meterName
          startUsage quantity multi w with
  | runtime.Panics msg =>
      msg = "decimal division by 0" /\ is_Some quantity /\ multi = 0
  | runtime.Returns c w' =>
      w' = w
      /\ (is_Some quantity -> multi <> 0)
      /\ (is_Some (schema.CostComponent.MonthlyQuantity c) <-> is_Some quantity)
      /\ schema.CostComponent.Name c = name
      /\ schema.CostComponent.Unit c = unit
  end.
Proof.
  destruct quantity as [q|].
  - destruct (decide (multi = 0)) as [->|Hmulti].
    + unfold azure.vaultKeysCostComponent, runtime.bind.
      change (decimal.Div q (decimal.NewFromInt 0)) with (@None decimal.Decimal).
      cbn. eauto.
    + rewrite vaultKeysCostComponent_ret by done.
      destruct (Div_is_Some q (decimal.NewFromInt multi) Hmulti) as [x Hx].
      unfold blockQuantity. rewrite Hx. cbn. repeat split; eauto.
  - cbn. repeat split; by intros [? ?].
Qed.

Lemma vault_key_component_panics_exactly_on_zero_block_witness :
  azure.vaultKeysCostComponent "Secrets operations" "westeurope"
    "10K transactions" "Premium" "Operations" "0"
    (Some (decimal.NewFromInt 25000)) 0 runtime.initial
  = runtime.Panics "decimal division by 0".
Proof.
  pose proof (vault_key_component_panics_exactly_on_zero_block
                "Secrets operations" "westeurope" "10K transactions" "Premium"
                "Operations" "0" (Some (decimal.NewFromInt 25000)) 0
                runtime.initial) as H.
  destruct (azure.vaultKeysCostComponent _ _ _ _ _ _ _ _ _) as [c w'|msg].
  - destruct H as (_ & Hmulti & _). by destruct Hmulti.
  - by destruct H as [-> _].
Defined.
